(** * PyExam: the task store and the HTTP handler of [httpserver.py]

    A shallow embedding of [TaskManager] and [TodoHandler] and the
    properties of the to-do service stated over it.

    Python objects that reach the program from [json.loads] are modelled
    by the inductive type [Py.value]; a task held by the store is the
    dict [{'id', 'title', 'priority', 'isDone'}] that [create_task]
    builds, modelled by the record [task].  Mutation of [self.tasks] and
    of the backing file is explicit state passing over the record
    [TaskManager]: every method gives the store it leaves and what it
    returns or raises, the store being the one it leaves also when it
    raises.

    What the program takes from the Python library is modelled by what it
    does for the program:
    - [int] on a [str] is a variable of the section [TodoHandler]; the
      properties hold for every function in its place;
    - the JSON encoder is the class [Encoder]: which exception, if any,
      [json.dump] into the file and [json.dumps] with [encode] raise on a
      value, and what [json.loads] gives on what [json.dump] left in the
      file; the properties hold for every encoder, the examples are run
      with [utf8_encoder], which raises [UnicodeEncodeError] on a lone
      surrogate;
    - [json.loads], [rfile.read] and the file system appear through
      their outcomes ([loads_result], [file_state]); a file that was
      read holds its text, on which [strip] is computed;
    - a [str] is a [string] holding the bytes of its UTF-8 encoding, a
      lone surrogate being the three bytes the [surrogatepass] handler
      gives it;
    - a request is taken after the server has parsed its request line and
      headers; a body shorter than its declared length, on which the read
      waits, is not modelled;
    - a write to the file replaces the content, or leaves it when the
      file cannot be opened, or breaks off and leaves a part of the text
      when [json.dump] raises; an I/O error in the middle of a write is
      not modelled. *)

From Stdlib Require Import ZArith List String Ascii Bool Lia Sorted.
From Stdlib Require Import Floats.SpecFloat.
Import ListNotations.

#[local] Open Scope string_scope.
#[local] Open Scope list_scope.
#[local] Open Scope Z_scope.

(** ** Python values *)

Module Py.

(** What [json.loads] can return: [None], [bool], [int], [float], [str],
    [list] and [dict] with [str] keys (items in insertion order, keys
    pairwise distinct). *)
#[warnings="-register-all"]
Inductive value : Type :=
| PNone
| PBool (b : bool)
| PInt (n : Z)
| PFloat (f : spec_float)
| PStr (s : string)
| PList (l : list value)
| PDict (d : list (string * value)).

(** A call either returns or raises; the exception is named by its class. *)
Inductive result (A : Type) : Type :=
| Returns (a : A)
| Raises (exn : string).
Arguments Returns {A} a.
Arguments Raises {A} exn.

(** [bool(v)], the test behind [if v] and [not v]. *)
Definition truthy (v : value) : bool :=
  match v with
  | PNone => false
  | PBool b => b
  | PInt n => negb (n =? 0)
  | PFloat (S754_zero _) => false
  | PFloat _ => true
  | PStr s => negb (s =? "")%string
  | PList l => match l with [] => false | _ => true end
  | PDict d => match d with [] => false | _ => true end
  end.

(** [v is None]. *)
Definition is_none (v : value) : bool :=
  match v with PNone => true | _ => false end.

Fixpoint lookup (key : string) (d : list (string * value)) : option value :=
  match d with
  | [] => None
  | (k, v) :: r => if (k =? key)%string then Some v else lookup key r
  end.

(** [v.get(key, default)]: only a dict has the attribute [get]. *)
Definition get (v : value) (key : string) (default : value) : result value :=
  match v with
  | PDict d =>
      match lookup key d with
      | Some x => Returns x
      | None => Returns default
      end
  | _ => Raises "AttributeError"
  end.

(** Numbers compare by value across [bool], [int] and [float]. *)
Inductive number : Type :=
| NInt (n : Z)
| NFloat (f : spec_float).

Definition as_number (v : value) : option number :=
  match v with
  | PBool b => Some (NInt (if b then 1 else 0))
  | PInt n => Some (NInt n)
  | PFloat f => Some (NFloat f)
  | _ => None
  end.

(** An [int] equals a [float] when the float is that integer exactly. *)
Definition float_eq_int (f : spec_float) (n : Z) : bool :=
  match f with
  | S754_zero _ => n =? 0
  | S754_finite s m e =>
      let v := if s then Z.neg m else Z.pos m in
      if 0 <=? e then n =? v * 2 ^ e else n * 2 ^ (- e) =? v
  | _ => false
  end.

Definition number_eqb (a b : number) : bool :=
  match a, b with
  | NInt x, NInt y => x =? y
  | NFloat f, NFloat g => SFeqb f g
  | NInt x, NFloat g => float_eq_int g x
  | NFloat f, NInt y => float_eq_int f y
  end.

(** [a == b] on two distinct objects ([nan] is equal to nothing; the
    identity shortcut of containers is taken where an object is compared
    with itself, see [list_remove]). *)
Fixpoint eqb (a b : value) {struct a} : bool :=
  match a, b with
  | PNone, PNone => true
  | PStr s, PStr t => (s =? t)%string
  | PList l, PList l' =>
      (fix all2 (l : list value) (l' : list value) {struct l} : bool :=
         match l, l' with
         | [], [] => true
         | x :: r, y :: r' => eqb x y && all2 r r'
         | _, _ => false
         end) l l'
  | PDict d, PDict d' =>
      (List.length d =? List.length d')%nat &&
      (fix all (d : list (string * value)) {struct d} : bool :=
         match d with
         | [] => true
         | (k, v) :: r =>
             match lookup k d' with
             | Some w => eqb v w
             | None => false
             end && all r
         end) d
  | (PBool _ | PInt _ | PFloat _), (PBool _ | PInt _ | PFloat _) =>
      match as_number a, as_number b with
      | Some x, Some y => number_eqb x y
      | _, _ => false
      end
  | _, _ => false
  end.

(** [v in strs] for a list of [str] literals. *)
Definition in_strs (v : value) (strs : list string) : bool :=
  existsb (fun s => eqb v (PStr s)) strs.

(** ** Methods of [str] *)

(** [s.startswith(p)]. *)
Definition startswith (s p : string) : bool := String.prefix p s.

Fixpoint rev_string (s acc : string) : string :=
  match s with
  | EmptyString => acc
  | String c r => rev_string r (String c acc)
  end.

(** [s.endswith(p)]. *)
Definition endswith (s p : string) : bool :=
  String.prefix (rev_string p "") (rev_string s "").

Fixpoint lstrip (c : ascii) (s : string) : string :=
  match s with
  | EmptyString => EmptyString
  | String x r => if Ascii.eqb x c then lstrip c r else s
  end.

(** [s.strip(c)] for a one-character [c]. *)
Definition strip (c : ascii) (s : string) : string :=
  rev_string (lstrip c (rev_string (lstrip c s) "")) "".

(** [s.split(c)]: the pieces between the occurrences of [c], empty pieces
    kept; never the empty list. *)
Fixpoint split (c : ascii) (s : string) : list string :=
  match s with
  | EmptyString => [EmptyString]
  | String x r =>
      if Ascii.eqb x c then EmptyString :: split c r
      else match split c r with
           | h :: t => String x h :: t
           | [] => [String x EmptyString]
           end
  end.

(** The code points [str.isspace] holds for: the characters
    [s.strip()] takes off. *)
Definition isspace (cp : Z) : bool :=
  (9 <=? cp) && (cp <=? 13) || (28 <=? cp) && (cp <=? 32)
  || (cp =? 133) || (cp =? 160) || (cp =? 5760)
  || (8192 <=? cp) && (cp <=? 8202)
  || (cp =? 8232) || (cp =? 8233) || (cp =? 8239) || (cp =? 8287)
  || (cp =? 12288).

Definition byte (c : ascii) : Z := Z.of_N (N_of_ascii c).

(** The code point of the bytes [a], [a b] and [a b c] when they are the
    UTF-8 encoding of one, the shortest there is for it. *)
Definition one_byte (a : Z) : option Z :=
  if a <? 128 then Some a else None.

Definition two_bytes (a b : Z) : option Z :=
  if (194 <=? a) && (a <=? 223) && (128 <=? b) && (b <=? 191)
  then Some ((a - 192) * 64 + (b - 128)) else None.

Definition three_bytes (a b c : Z) : option Z :=
  if (224 <=? a) && (a <=? 239) && (128 <=? b) && (b <=? 191)
     && (128 <=? c) && (c <=? 191)
     && (2048 <=? (a - 224) * 4096 + (b - 128) * 64 + (c - 128))
  then Some ((a - 224) * 4096 + (b - 128) * 64 + (c - 128)) else None.

Definition is_space (cp : option Z) : bool :=
  match cp with Some n => isspace n | None => false end.

(** The text after its first character when that is whitespace, and the
    same from the other end on the reversed text. *)
Definition space_head (s : string) : option string :=
  match s with
  | String a r =>
      if is_space (one_byte (byte a)) then Some r
      else match r with
           | String b r' =>
               if is_space (two_bytes (byte a) (byte b)) then Some r'
               else match r' with
                    | String c r'' =>
                        if is_space (three_bytes (byte a) (byte b) (byte c))
                        then Some r'' else None
                    | EmptyString => None
                    end
           | EmptyString => None
           end
  | EmptyString => None
  end.

Definition space_last (s : string) : option string :=
  match s with
  | String c r =>
      if is_space (one_byte (byte c)) then Some r
      else match r with
           | String b r' =>
               if is_space (two_bytes (byte b) (byte c)) then Some r'
               else match r' with
                    | String a r'' =>
                        if is_space (three_bytes (byte a) (byte b) (byte c))
                        then Some r'' else None
                    | EmptyString => None
                    end
           | EmptyString => None
           end
  | EmptyString => None
  end.

(** Characters are taken off as long as [skip] finds one; [n] bounds
    their number. *)
Fixpoint drop_while (skip : string -> option string) (n : nat) (s : string)
  : string :=
  match n with
  | O => s
  | S m =>
      match skip s with
      | Some r => drop_while skip m r
      | None => s
      end
  end.

(** [s.strip()]. *)
Definition strip_space (s : string) : string :=
  let l := drop_while space_head (String.length s) s in
  rev_string (drop_while space_last (String.length l) (rev_string l "")) "".

End Py.

Import Py.

(** ** What the library does with JSON text *)

(** Reading and decoding: [json.loads] on a text, and in a request
    [self.rfile.read(content_length)], [decode('utf-8')] and [json.loads]
    one after the other. *)
Inductive loads_result : Type :=
| Loaded (v : value)           (* the text is well-formed JSON for v *)
| DecodeError                  (* a ValueError: UnicodeDecodeError,
                                  JSONDecodeError, a length below -1 *)
| LoadsRaises (exn : string).  (* an exception that is no ValueError:
                                  RecursionError on deep nesting,
                                  OverflowError on a length that is no
                                  ssize_t *)

(** A [str] of 7-bit characters. *)
Fixpoint plain (s : string) : bool :=
  match s with
  | EmptyString => true
  | String c r => (nat_of_ascii c <? 128)%nat && plain r
  end.

(** The JSON encoder of the run-time.
    [dump_raises v]: the exception that leaves
    [json.dump(v, f, ensure_ascii=False, indent=2)] on the file opened
    with the utf-8 encoding; [None] when all of [v] is written.
    [dumps_raises v]: the exception that leaves
    [json.dumps(v, ensure_ascii=False).encode('utf-8')].
    [reload v]: [json.loads] on what [json.dump] left in the file for
    [v], all of the text or, when it raised, the beginning of it
    ([DecodeError] also when nothing was left and nothing is decoded).
    An object with the one key [error] and a 7-bit message, and the empty
    object, are encoded without an exception. *)
Class Encoder : Type := {
  dump_raises : value -> option string;
  dumps_raises : value -> option string;
  reload : value -> loads_result;
  dumps_message :
    forall m, plain m = true -> dumps_raises (PDict [("error", PStr m)]) = None;
  dumps_empty : dumps_raises (PDict []) = None
}.

(** ** The encoder of the examples *)

(** A surrogate in the bytes of a [str]: the byte 237 followed by a byte
    from 160 to 191, which is how a code point from U+D800 to U+DFFF,
    and no other, begins. *)
Fixpoint has_surrogate (s : string) : bool :=
  match s with
  | String a (String b _ as r) =>
      (byte a =? 237) && (160 <=? byte b) && (byte b <=? 191)
      || has_surrogate r
  | _ => false
  end.

(** A surrogate in a key or in a [str] anywhere in [v]. *)
Fixpoint surrogate_in (v : value) : bool :=
  match v with
  | PStr s => has_surrogate s
  | PList l => existsb surrogate_in l
  | PDict d =>
      existsb (fun kv => has_surrogate (fst kv) || surrogate_in (snd kv)) d
  | _ => false
  end.

(** The [utf-8] codec refuses a surrogate. *)
Definition utf8_raises (v : value) : option string :=
  if surrogate_in v then Some "UnicodeEncodeError" else None.

Lemma plain_byte (a : ascii) :
  (nat_of_ascii a <? 128)%nat = true -> (byte a =? 237) = false.
Proof.
  destruct a as [[] [] [] [] [] [] [] []]; vm_compute; intro H;
    first [reflexivity | discriminate H].
Qed.

Lemma plain_has_no_surrogate (m : string) :
  plain m = true -> has_surrogate m = false.
Proof.
  induction m as [|a m IH]; [reflexivity |].
  cbn [plain]. intro H. apply andb_true_iff in H. destruct H as [Ha Hm].
  destruct m as [|b m]; [reflexivity |].
  change (has_surrogate (String a (String b m)))
    with ((byte a =? 237) && (160 <=? byte b) && (byte b <=? 191)
          || has_surrogate (String b m)).
  rewrite (plain_byte a Ha), (IH Hm). reflexivity.
Qed.

Lemma utf8_message (m : string) :
  plain m = true -> utf8_raises (PDict [("error", PStr m)]) = None.
Proof.
  intro H. unfold utf8_raises.
  replace (surrogate_in (PDict [("error", PStr m)])) with (has_surrogate m)
    by (cbn; rewrite orb_false_r; reflexivity).
  rewrite (plain_has_no_surrogate m H). reflexivity.
Qed.

(** The encoder of CPython on the values of [value]: [json.dump] and
    [json.dumps] with [ensure_ascii=False] leave a surrogate as it is,
    and the [utf-8] codec, of the file or of [encode], raises
    [UnicodeEncodeError] on it; everything else is encoded (the
    recursion limit, which only very deep nesting meets, is left out).
    A text that was written whole is read back as the value; a text that
    broke off is the beginning of one and does not decode. *)
Definition utf8_encoder : Encoder :=
  {| dump_raises := utf8_raises;
     dumps_raises := utf8_raises;
     reload := fun v => if surrogate_in v then DecodeError else Loaded v;
     dumps_message := utf8_message;
     dumps_empty := eq_refl |}.

(** The length a request declares and the body it carries, for the
    examples. *)
Ltac declared n :=
  split; [exists n; repeat split; [discriminate | lia] | reflexivity].

Section Service.

Context {enc : Encoder}.

(** ** The task store: [class TaskManager] *)

(** A task dict as [create_task] builds it.  [title] and [priority] hold
    whatever the caller passes; the handler passes values taken from the
    request body. *)
Record task : Type := mk_task {
  id : Z;
  title : value;
  priority : value;
  isDone : bool
}.

(** The dict itself, as [json.dump] and [_send_json] see it. *)
Definition task_json (t : task) : value :=
  PDict [("id", PInt (id t)); ("title", title t);
         ("priority", priority t); ("isDone", PBool (isDone t))].

Definition tasks_json (l : list task) : value :=
  PList (map task_json l).

(** [a == b] on two task dicts that are not the same object. *)
Definition task_eqb (a b : task) : bool :=
  Py.eqb (task_json a) (task_json b).

(** The backing file as [load_tasks] meets it: what [os.path.exists],
    [open] and [read] do on it, and for a text that was read what
    [json.loads] gives on it once stripped (looked at only when the
    stripped text is not empty). *)
Inductive file_state : Type :=
| Missing                      (* os.path.exists(filename) is False *)
| Unreadable                   (* open or read raises IOError *)
| ReadRaises (exn : string)    (* read raises another exception:
                                  UnicodeDecodeError on bytes that are not
                                  UTF-8 *)
| Content (text : string) (decoded : loads_result)
                               (* read returns text *)
| Written (v : value).         (* what json.dump left for v: the text of
                                  v, or the beginning of it when
                                  json.dump raised *)

(** [self.tasks] together with the file the store mirrors itself to.
    [writable] says whether [open(filename, 'w')] succeeds. *)
Record TaskManager : Type := mk_manager {
  tasks : list task;
  file : file_state;
  writable : bool
}.

Definition with_tasks (self : TaskManager) (l : list task) : TaskManager :=
  {| tasks := l; file := file self; writable := writable self |}.

(** What [self.tasks = json.loads(content)] and the [except] clause
    around it make of the decoder's outcome. *)
Definition bound (decoded : loads_result) : result value :=
  match decoded with
  | Loaded v => Returns v
  | DecodeError => Returns (PList [])
  | LoadsRaises exn => Raises exn
  end.

(** [load_tasks], on the value bound to [self.tasks] ([__init__] has set it
    to the empty list before the call).  [except (JSONDecodeError, IOError)]
    catches the decoder's error and the I/O error and nothing else; content
    that decodes is bound as it is, whatever its shape. *)
Definition load_tasks (f : file_state) : result value :=
  match f with
  | Missing => Returns (PList [])
  | Unreadable => Returns (PList [])
  | ReadRaises exn => Raises exn
  | Content text decoded =>
      if (strip_space text =? "")%string then Returns (PList [])
      else bound decoded
  | Written v => bound (reload v)
  end.

(** [save_tasks]: the store it leaves and the exception that leaves it,
    if one does.  [open] truncates the file and [json.dump] writes the
    list piece by piece.  An [IOError] from [open] is caught and leaves
    the file as it was.  Any other exception from [json.dump] is not
    caught: what was written before it stays in the file. *)
Definition save_tasks (self : TaskManager) : TaskManager * result unit :=
  if writable self
  then ({| tasks := tasks self;
           file := Written (tasks_json (tasks self));
           writable := true |},
        match dump_raises (tasks_json (tasks self)) with
        | None => Returns tt
        | Some exn => Raises exn
        end)
  else (self, Returns tt).

(** [self.save_tasks()] followed by [return a]. *)
Definition returning {A : Type} (saved : TaskManager * result unit) (a : A)
  : TaskManager * result A :=
  (fst saved,
   match snd saved with
   | Returns _ => Returns a
   | Raises exn => Raises exn
   end).

(** [max(iterable)] after its first item: a later item replaces the
    running maximum when it is greater. *)
Fixpoint max_from (cur : Z) (l : list Z) : Z :=
  match l with
  | [] => cur
  | x :: r => max_from (if x >? cur then x else cur) r
  end.

(** [get_next_id]. *)
Definition get_next_id (self : TaskManager) : Z :=
  match tasks self with
  | [] => 1
  | t :: r => max_from (id t) (map id r) + 1
  end.

(** [create_task]: the store after the call and the new task, or the
    exception of [save_tasks]; the task is in the list by then. *)
Definition create_task (self : TaskManager) (title priority : value)
  : TaskManager * result task :=
  let task := {| id := get_next_id self; title := title;
                 priority := priority; isDone := false |} in
  returning (save_tasks (with_tasks self (tasks self ++ [task]))) task.

(** [get_all_tasks]. *)
Definition get_all_tasks (self : TaskManager) : list task := tasks self.

(** A reference to a dict of [self.tasks]: where it sits in the list and
    what it holds. *)
Record task_ref : Type := mk_ref { pos : nat; obj : task }.

Fixpoint find_by_id (task_id : Z) (i : nat) (l : list task) : option task_ref :=
  match l with
  | [] => None
  | t :: r =>
      if id t =? task_id then Some {| pos := i; obj := t |}
      else find_by_id task_id (S i) r
  end.

(** [get_task_by_id]: the first task of the list with that id. *)
Definition get_task_by_id (self : TaskManager) (task_id : Z) : option task_ref :=
  find_by_id task_id 0 (tasks self).

(** [task['isDone'] = True] through a reference. *)
Fixpoint set_done (n : nat) (l : list task) : list task :=
  match l, n with
  | [], _ => []
  | t :: r, O => {| id := id t; title := title t;
                    priority := priority t; isDone := true |} :: r
  | t :: r, S k => t :: set_done k r
  end.

(** [mark_as_done].  A task dict has four keys, so [if task] tests
    whether one was found. *)
Definition mark_as_done (self : TaskManager) (task_id : Z)
  : TaskManager * result bool :=
  match get_task_by_id self task_id with
  | Some r =>
      returning (save_tasks (with_tasks self (set_done (pos r) (tasks self))))
                true
  | None => (self, Returns false)
  end.

(** [l.remove(x)]: the first item that is [x] or equals [x] goes;
    [ValueError] when there is none.  [i] is the index of the head of [l]. *)
Fixpoint list_remove (x : task_ref) (i : nat) (l : list task)
  : result (list task) :=
  match l with
  | [] => Raises "ValueError"
  | e :: r =>
      if (i =? pos x)%nat || task_eqb e (obj x) then Returns r
      else match list_remove x (S i) r with
           | Returns r' => Returns (e :: r')
           | Raises exn => Raises exn
           end
  end.

(** [delete_task]. *)
Definition delete_task (self : TaskManager) (task_id : Z)
  : TaskManager * result bool :=
  match get_task_by_id self task_id with
  | Some r =>
      match list_remove r 0 (tasks self) with
      | Returns l => returning (save_tasks (with_tasks self l)) true
      | Raises exn => (self, Raises exn)
      end
  | None => (self, Returns false)
  end.

(** ** Runs of store operations *)

Inductive op : Type :=
| Create (title priority : value)
| MarkDone (task_id : Z)
| Delete (task_id : Z).

(** The store an operation leaves, whether it returns or raises. *)
Definition step (self : TaskManager) (o : op) : TaskManager :=
  match o with
  | Create t p => fst (create_task self t p)
  | MarkDone i => fst (mark_as_done self i)
  | Delete i => fst (delete_task self i)
  end.

Definition run (ops : list op) (self : TaskManager) : TaskManager :=
  fold_left step ops self.

(** The creations of a run, in order: the id each one assigned and the
    tasks stored when it was assigned. *)
Fixpoint creations (ops : list op) (self : TaskManager)
  : list (Z * list task) :=
  match ops with
  | [] => []
  | o :: r =>
      match o with
      | Create _ _ => [(get_next_id self, tasks self)]
      | _ => []
      end ++ creations r (step self o)
  end.

(** The ids a run assigned, oldest first. *)
Definition ids_assigned (ops : list op) (self : TaskManager) : list Z :=
  map fst (creations ops self).

Definition is_delete (o : op) : bool :=
  match o with Delete _ => true | _ => false end.

(** The exception a call ended with, if it did. *)
Definition exception_of {A : Type} (r : result A) : option string :=
  match r with
  | Returns _ => None
  | Raises exn => Some exn
  end.

(** The exception that leaves an operation, if one does. *)
Definition raised_by (self : TaskManager) (o : op) : option string :=
  match o with
  | Create t p => exception_of (snd (create_task self t p))
  | MarkDone i => exception_of (snd (mark_as_done self i))
  | Delete i => exception_of (snd (delete_task self i))
  end.

(** ** The HTTP handler: [class TodoHandler] *)

(** A request as the handler reads it: [self.command], [self.path], the
    Content-Length header when there is one, and what reading the
    declared length from [self.rfile] and decoding it gives. *)
Record request : Type := mk_request {
  command : string;
  path : string;
  content_length : option string;
  payload : loads_result
}.

(** How far [_send_json] gets: the status line and the Content-Type
    header go out first; then the data, unless it is [None], is encoded
    and written.  [raised] is the exception that leaves [_send_json] in
    the encoding, after the headers and with no body written. *)
Record response : Type := mk_response {
  status : Z;
  content_type : string;
  body : option value;
  raised : option string
}.

(** How the handling of a request ends. *)
Inductive outcome : Type :=
| Sent (r : response)          (* _send_json was called and got as far as r *)
| Crashed (exn : string)       (* an exception left the handler before
                                  anything was sent *)
| LibraryError (code : Z).     (* the base class answered with send_error *)

Definition OK : Z := 200.
Definition CREATED : Z := 201.
Definition BAD_REQUEST : Z := 400.
Definition NOT_FOUND : Z := 404.
Definition NOT_IMPLEMENTED : Z := 501.

Definition _send_json (data : value) (status : Z) : response :=
  {| status := status;
     content_type := "application/json";
     body := if is_none data then None
             else match dumps_raises data with
                  | None => Some data
                  | Some _ => None
                  end;
     raised := if is_none data then None else dumps_raises data |}.

Definition _send_error (status : Z) (message : string) : response :=
  _send_json (PDict [("error", PStr message)]) status.

Section TodoHandler.

(** [int(s)] on a [str]: [None] stands for [ValueError].  Nothing is
    assumed about it. *)
Variable py_int : string -> option Z.

(** [_parse_json_body].  [int(self.headers.get('Content-Length', 0))]
    is [int(0)] without the header; the [except] clause turns every
    [ValueError], of [int], of the read or of the decoding, into [None];
    any other exception leaves the method. *)
Definition _parse_json_body (req : request) : result value :=
  match match content_length req with
        | Some s => py_int s
        | None => Some 0
        end with
  | None => Returns PNone
  | Some n =>
      if n =? 0 then Returns PNone
      else match payload req with
           | Loaded v => Returns v
           | DecodeError => Returns PNone
           | LoadsRaises exn => Raises exn
           end
  end.

(** [_extract_task_id_from_path]. *)
Definition _extract_task_id_from_path (path : string) : option Z :=
  match split "/" (strip "/" path) with
  | p0 :: p1 :: _ => if (p0 =? "tasks")%string then py_int p1 else None
  | _ => None
  end.

Definition _handle_get_tasks (self : TaskManager) : TaskManager * outcome :=
  (self, Sent (_send_json (tasks_json (get_all_tasks self)) OK)).

(** [_handle_post_tasks]. *)
Definition _handle_post_tasks (self : TaskManager) (req : request)
  : TaskManager * outcome :=
  match _parse_json_body req with
  | Raises exn => (self, Crashed exn)
  | Returns data =>
      if is_none data
      then (self, Sent (_send_error BAD_REQUEST "Invalid JSON"))
      else
        match Py.get data "title" PNone with
        | Raises exn => (self, Crashed exn)
        | Returns title =>
            match Py.get data "priority" (PStr "normal") with
            | Raises exn => (self, Crashed exn)
            | Returns priority =>
                if negb (truthy title)
                then (self, Sent (_send_error BAD_REQUEST "title is required"))
                else if negb (in_strs priority ["low"; "normal"; "high"])
                then (self, Sent (_send_error BAD_REQUEST
                                    "priority must be low, normal, or high"))
                else
                  match create_task self title priority with
                  | (self', Returns task) =>
                      (self', Sent (_send_json (task_json task) CREATED))
                  | (self', Raises exn) => (self', Crashed exn)
                  end
            end
        end
  end.

(** [_handle_post_tasks_complete]. *)
Definition _handle_post_tasks_complete (self : TaskManager) (req : request)
  : TaskManager * outcome :=
  match _extract_task_id_from_path (path req) with
  | None => (self, Sent (_send_error BAD_REQUEST "Invalid task ID"))
  | Some task_id =>
      match mark_as_done self task_id with
      | (self', Returns true) => (self', Sent (_send_json (PDict []) OK))
      | (self', Returns false) =>
          (self', Sent (_send_error NOT_FOUND "Task not found"))
      | (self', Raises exn) => (self', Crashed exn)
      end
  end.

(** [_handle_delete_task]. *)
Definition _handle_delete_task (self : TaskManager) (req : request)
  : TaskManager * outcome :=
  match _extract_task_id_from_path (path req) with
  | None => (self, Sent (_send_error BAD_REQUEST "Invalid task ID"))
  | Some task_id =>
      match delete_task self task_id with
      | (self', Returns true) => (self', Sent (_send_json (PDict []) OK))
      | (self', Returns false) =>
          (self', Sent (_send_error NOT_FOUND "Task not found"))
      | (self', Raises exn) => (self', Crashed exn)
      end
  end.

Definition do_GET (self : TaskManager) (req : request)
  : TaskManager * outcome :=
  if (path req =? "/tasks")%string then _handle_get_tasks self
  else (self, Sent (_send_error NOT_FOUND "Route not found")).

Definition do_POST (self : TaskManager) (req : request)
  : TaskManager * outcome :=
  if (path req =? "/tasks")%string then _handle_post_tasks self req
  else if startswith (path req) "/tasks/" && endswith (path req) "/complete"
  then _handle_post_tasks_complete self req
  else (self, Sent (_send_error NOT_FOUND "Route not found")).

Definition do_DELETE (self : TaskManager) (req : request)
  : TaskManager * outcome :=
  if startswith (path req) "/tasks/" then _handle_delete_task self req
  else (self, Sent (_send_error NOT_FOUND "Route not found")).

(** The dispatch [TodoHandler] inherits from [BaseHTTPRequestHandler]:
    the method named [do_] followed by the command is called when the
    class has one, and [send_error(NOT_IMPLEMENTED)] answers otherwise.
    The class defines [do_GET], [do_POST] and [do_DELETE]. *)
Definition dispatch (self : TaskManager) (req : request)
  : TaskManager * outcome :=
  if (command req =? "GET")%string then do_GET self req
  else if (command req =? "POST")%string then do_POST self req
  else if (command req =? "DELETE")%string then do_DELETE self req
  else (self, LibraryError NOT_IMPLEMENTED).

(** The routing table, by the tests the three methods make. *)
Definition routed (req : request) : bool :=
  ((command req =? "GET")%string && (path req =? "/tasks")%string)
  || ((command req =? "POST")%string && (path req =? "/tasks")%string)
  || ((command req =? "POST")%string
      && startswith (path req) "/tasks/" && endswith (path req) "/complete")
  || ((command req =? "DELETE")%string && startswith (path req) "/tasks/").

(** Requests handled one after the other on the same store, as
    [serve_forever] does: the store after the last and the outcomes in
    order. *)
Fixpoint serve (self : TaskManager) (reqs : list request)
  : TaskManager * list outcome :=
  match reqs with
  | [] => (self, [])
  | req :: r =>
      let (self', out) := dispatch self req in
      let (self'', outs) := serve self' r in
      (self'', out :: outs)
  end.

End TodoHandler.

(** A reading of [int] on plain decimal numerals, with which the handler
    can be run on examples: digits only, an optional sign in front. *)
Fixpoint digits (s : string) (acc : Z) : option Z :=
  match s with
  | EmptyString => Some acc
  | String c r =>
      let n := Z.of_nat (nat_of_ascii c) in
      if (48 <=? n) && (n <=? 57) then digits r (10 * acc + (n - 48))
      else None
  end.

Definition decimal_int (s : string) : option Z :=
  match s with
  | EmptyString => None
  | String "-" (String _ _ as r) => option_map Z.opp (digits r 0)
  | String "+" (String _ _ as r) => digits r 0
  | _ => digits s 0
  end.

(** * Vocabulary of the properties *)

(** The maximum of a non-empty list of ids, head first. *)
Definition maximum (x : Z) (r : list Z) : Z := fold_right Z.max x r.

(** The next id in the words of the specification: 1 for the empty
    collection, otherwise the maximum id plus one. *)
Definition spec_next_id (l : list task) : Z :=
  match map id l with
  | [] => 1
  | x :: r => maximum x r + 1
  end.

(** No two stored tasks share an id. *)
Definition unique_ids (self : TaskManager) : Prop :=
  NoDup (map id (tasks self)).

(** Every id a run assigns is greater than all ids the run assigned
    before it: the reading of "never reused" over a run. *)
Definition ids_increase (ops : list op) (self : TaskManager) : Prop :=
  StronglySorted Z.lt (ids_assigned ops self).

(** [req] is a POST that [do_POST] hands to [_handle_post_tasks_complete]
    and whose path yields the id [x]. *)
Definition complete_request (py_int : string -> option Z)
    (req : request) (x : Z) : Prop :=
  command req = "POST"
  /\ startswith (path req) "/tasks/" = true
  /\ endswith (path req) "/complete" = true
  /\ _extract_task_id_from_path py_int (path req) = Some x.

(** [req] is a DELETE that [do_DELETE] hands to [_handle_delete_task] and
    whose path yields the id [x]. *)
Definition delete_request (py_int : string -> option Z)
    (req : request) (x : Z) : Prop :=
  command req = "DELETE"
  /\ startswith (path req) "/tasks/" = true
  /\ _extract_task_id_from_path py_int (path req) = Some x.

(** The Content-Length header declares a body that [rfile.read] returns:
    it reads as an integer that is not 0 and not below -1. *)
Definition declares_body (py_int : string -> option Z) (req : request) : Prop :=
  exists n,
    match content_length req with
    | Some s => py_int s
    | None => Some 0
    end = Some n
    /\ n <> 0 /\ -1 <= n.

(** The body of [req] is well-formed JSON for [v]. *)
Definition body_is (py_int : string -> option Z) (req : request) (v : value)
  : Prop :=
  declares_body py_int req /\ payload req = Loaded v.

(** [v] is a JSON object. *)
Definition is_dict (v : value) : bool :=
  match v with PDict _ => true | _ => false end.

(** The commands [TodoHandler] has a method for. *)
Definition has_method (c : string) : bool :=
  (c =? "GET")%string || (c =? "POST")%string || (c =? "DELETE")%string.

(** ** Vocabulary of the further properties *)

(** [c in s]. *)
Fixpoint contains (c : ascii) (s : string) : bool :=
  match s with
  | EmptyString => false
  | String x r => Ascii.eqb x c || contains c r
  end.

(** A path segment: not empty and without a slash. *)
Definition segment (s : string) : Prop :=
  s <> "" /\ contains "/" s = false.

(** The dict [create_task] builds on the store [self]. *)
Definition new_task (self : TaskManager) (t p : value) : task :=
  {| id := get_next_id self; title := t; priority := p; isDone := false |}.

(** [save_tasks] on the list [l] returns: the file cannot be opened, or
    [json.dump] writes all of [l]. *)
Definition savable (self : TaskManager) (l : list task) : Prop :=
  writable self = false \/ dump_raises (tasks_json l) = None.

(** The task [t] after [t['isDone'] = True]. *)
Definition completed (t : task) : task :=
  {| id := id t; title := title t; priority := priority t; isDone := true |}.

(** The file holds what [json.dump] leaves for the list the store
    holds. *)
Definition mirrored (self : TaskManager) : Prop :=
  file self = Written (tasks_json (tasks self)).

(** The list runs through the ids in strictly ascending order. *)
Definition ascending (self : TaskManager) : Prop :=
  StronglySorted Z.lt (map id (tasks self)).

(** What the create handler lets into the store: a title that is true
    and one of the three priorities. *)
Definition valid_task (t : task) : Prop :=
  truthy (title t) = true
  /\ (priority t = PStr "low" \/ priority t = PStr "normal"
      \/ priority t = PStr "high").

(** The error replies of the handler: status and message. *)
Definition error_replies : list (Z * string) :=
  [(BAD_REQUEST, "Invalid JSON"); (BAD_REQUEST, "title is required");
   (BAD_REQUEST, "priority must be low, normal, or high");
   (BAD_REQUEST, "Invalid task ID"); (NOT_FOUND, "Task not found");
   (NOT_FOUND, "Route not found")].

(** What the handler does once a store method was called: the reply
    that goes with the value returned, no reply when the method raised. *)
Definition after_call {A : Type} (reply : A -> response) (res : result A)
  : outcome :=
  match res with
  | Returns a => Sent (reply a)
  | Raises exn => Crashed exn
  end.

(** The ways a request can end, with the store it leaves: the store is
    the one before unless [create_task] was called, or [mark_as_done] or
    [delete_task] found the task. *)
Inductive handled (self : TaskManager) : TaskManager -> outcome -> Prop :=
| handled_unsupported :
    handled self self (LibraryError NOT_IMPLEMENTED)
| handled_crash exn :
    handled self self (Crashed exn)
| handled_error code message :
    In (code, message) error_replies ->
    handled self self (Sent (_send_error code message))
| handled_list :
    handled self self (Sent (_send_json (tasks_json (tasks self)) OK))
| handled_create t p :
    truthy t = true -> in_strs p ["low"; "normal"; "high"] = true ->
    handled self (fst (create_task self t p))
            (after_call (fun task => _send_json (task_json task) CREATED)
                        (snd (create_task self t p)))
| handled_complete x :
    snd (mark_as_done self x) <> Returns false ->
    handled self (fst (mark_as_done self x))
            (after_call (fun _ => _send_json (PDict []) OK)
                        (snd (mark_as_done self x)))
| handled_delete x :
    snd (delete_task self x) <> Returns false ->
    handled self (fst (delete_task self x))
            (after_call (fun _ => _send_json (PDict []) OK)
                        (snd (delete_task self x))).

(** The store operation behind an outcome, when there is one. *)
Definition ops_of (self self' : TaskManager) : Prop :=
  self' = self \/ exists o, self' = step self o.

(** The list after an operation, computed on a store that has no file
    to write to. *)
Definition memory_step (l : list task) (o : op) : list task :=
  tasks (step {| tasks := l; file := Missing; writable := false |} o).

(** One create per pair of a title and a priority. *)
Definition creates (cs : list (value * value)) : list op :=
  map (fun c => Create (fst c) (snd c)) cs.

(** The length the Content-Length header declares, when [int] reads
    one. *)
Definition declared_length (py_int : string -> option Z) (req : request)
  : option Z :=
  match content_length req with
  | Some s => py_int s
  | None => Some 0
  end.

(** A response that went out whole. *)
Definition complete (r : response) : Prop := raised r = None.

(** The exception that leaves the handler, if one does: before anything
    was sent, or from [_send_json] after status and headers. *)
Definition escaped (out : outcome) : option string :=
  match out with
  | Sent r => raised r
  | Crashed exn => Some exn
  | LibraryError _ => None
  end.

(** The UTF-8 bytes of a code point below U+10000, and of a text given
    by its code points. *)
Definition chr (n : Z) : ascii := ascii_of_N (Z.to_N n).

Definition utf8 (cp : Z) : string :=
  if cp <? 128 then String (chr cp) ""
  else if cp <? 2048
  then String (chr (192 + cp / 64)) (String (chr (128 + cp mod 64)) "")
  else String (chr (224 + cp / 4096))
         (String (chr (128 + (cp / 64) mod 64))
            (String (chr (128 + cp mod 64)) "")).

Definition text_of (cps : list Z) : string :=
  fold_right (fun cp s => (utf8 cp ++ s)%string) "" cps.

(** A task dict in the layout [save_tasks] writes, read as a task. *)
Definition as_task (v : value) : option task :=
  match v with
  | PDict [("id", PInt i); ("title", t); ("priority", p);
           ("isDone", PBool d)] =>
      Some {| id := i; title := t; priority := p; isDone := d |}
  | _ => None
  end.

(** A persisted task array read as a list of tasks. *)
Fixpoint as_task_list (l : list value) : option (list task) :=
  match l with
  | [] => Some []
  | v :: r =>
      match as_task v, as_task_list r with
      | Some t, Some ts => Some (t :: ts)
      | _, _ => None
      end
  end.

Definition as_tasks (v : value) : option (list task) :=
  match v with
  | PList l => as_task_list l
  | _ => None
  end.

(** ** Stores and requests of the examples *)

(** A store with nothing in it and no file yet. *)
Definition fresh : TaskManager :=
  {| tasks := []; file := Missing; writable := true |}.

Definition two_tasks : TaskManager :=
  {| tasks := [ {| id := 1; title := PStr "Buy milk"; priority := PStr "high";
                   isDone := true |};
                {| id := 4; title := PStr "Call home"; priority := PStr "low";
                   isDone := false |} ];
     file := Missing;
     writable := true |}.

Definition create_mark_create : list op :=
  [Create (PStr "Read") (PStr "normal"); MarkDone 4;
   Create (PStr "Write") (PStr "low")].

Definition create_delete_create : list op :=
  [Create (PStr "Buy milk") (PStr "normal"); Delete 1;
   Create (PStr "Call home") (PStr "normal")].

(** A request without a body. *)
Definition bare (method p : string) : request :=
  {| command := method; path := p; content_length := None;
     payload := DecodeError |}.

(** [POST /tasks] with a declared length and a body that is JSON for [v]. *)
Definition post_tasks (len : string) (v : value) : request :=
  {| command := "POST"; path := "/tasks"; content_length := Some len;
     payload := Loaded v |}.

(** The object [{"title":"Buy milk","priority":"high"}], 38 bytes. *)
Definition milk : list (string * value) :=
  [("title", PStr "Buy milk"); ("priority", PStr "high")].

(** The two tasks over a file that is corrupt and cannot be written. *)
Definition read_only_disk : TaskManager :=
  {| tasks := tasks two_tasks; file := Content "[{" DecodeError;
     writable := false |}.

(** Requests of every kind, good and bad. *)
Definition sample_traffic : list request :=
  [post_tasks "38" (PDict milk);
   post_tasks "11" (PDict [("title", PInt 7)]);
   post_tasks "33" (PDict [("title", PStr "X"); ("priority", PStr "urgent")]);
   post_tasks "2" (PList []);
   bare "POST" "/tasks/1/complete";
   bare "DELETE" "/tasks/1";
   bare "PUT" "/tasks"].

(** A store as a hand-edited file can give it: an id twice. *)
Definition twins : TaskManager :=
  {| tasks := [ {| id := 7; title := PStr "a"; priority := PStr "low";
                   isDone := false |};
                {| id := 7; title := PStr "b"; priority := PStr "low";
                   isDone := true |};
                {| id := 2; title := PStr "c"; priority := PStr "high";
                   isDone := false |} ];
     file := Missing;
     writable := true |}.

(** A create whose Content-Length header is missing. *)
Definition no_length : request :=
  {| command := "POST"; path := "/tasks"; content_length := None;
     payload := Loaded (PDict milk) |}.

(** The [str] of the one character U+D800, a lone surrogate: what
    [json.loads] gives on the JSON string ["\ud800"]. *)
Definition lone_surrogate : string :=
  String "237" (String "160" (String "128" EmptyString)).

(** The object [{"title":"\ud800"}], 18 bytes. *)
Definition surrogate_title : list (string * value) :=
  [("title", PStr lone_surrogate)].

(** [POST /tasks] with that body, default priority. *)
Definition post_surrogate : request :=
  post_tasks "18" (PDict surrogate_title).

(** A list with a task whose title no encoder writes, behind a task that
    is fine and done. *)
Definition surrogate_tasks : list task :=
  [ {| id := 1; title := PStr "Buy milk"; priority := PStr "high";
       isDone := true |};
    {| id := 2; title := PStr lone_surrogate; priority := PStr "normal";
       isDone := false |} ].

(** The store that holds it, as three requests on the fresh store leave
    it ([reached_unwritable_title]). *)
Definition unwritable_title : TaskManager :=
  {| tasks := surrogate_tasks;
     file := Written (tasks_json surrogate_tasks);
     writable := true |}.

(** The text [{"tasks": []}]. *)
Definition tasks_object_text : string :=
  "{" ++ String "034" ("tasks" ++ String "034" ": []}").

(** A create whose Content-Length is below the least [ssize_t]:
    [rfile.read] raises [OverflowError]. *)
Definition overflowing : request :=
  {| command := "POST"; path := "/tasks";
     content_length := Some "-9223372036854775809";
     payload := LoadsRaises "OverflowError" |}.

Ltac error_reply :=
  apply handled_error; cbn; repeat (first [left; reflexivity | right]).

(** * Properties *)

(** ** Next id *)

Lemma step_max (x cur : Z) : (if x >? cur then x else cur) = Z.max x cur.
Proof.
  destruct (x >? cur) eqn:E.
  - apply Z.gtb_lt in E. lia.
  - rewrite Z.gtb_ltb in E. apply Z.ltb_ge in E. lia.
Qed.

Lemma maximum_max (a b : Z) (l : list Z) :
  maximum (Z.max a b) l = Z.max a (maximum b l).
Proof.
  unfold maximum. induction l as [|x l IH]; simpl.
  - reflexivity.
  - rewrite IH. lia.
Qed.

Lemma max_from_maximum (l : list Z) : forall cur, max_from cur l = maximum cur l.
Proof.
  induction l as [|x l IH]; intro cur; simpl.
  - reflexivity.
  - rewrite step_max, IH, maximum_max. reflexivity.
Qed.

Lemma maximum_upper (x : Z) (l : list Z) :
  x <= maximum x l /\ Forall (fun y => y <= maximum x l) l.
Proof.
  unfold maximum. induction l as [|y l [IH1 IH2]]; simpl.
  - split; [lia | constructor].
  - split; [lia |]. constructor; [lia |].
    eapply Forall_impl; [| exact IH2]. simpl. intros. lia.
Qed.

Lemma maximum_In (x : Z) (l : list Z) : In (maximum x l) (x :: l).
Proof.
  unfold maximum. induction l as [|y l IH]; simpl.
  - left. reflexivity.
  - destruct (Z.max_spec y (fold_right Z.max x l)) as [[_ E] | [_ E]];
      rewrite E.
    + simpl in IH. destruct IH as [IH | IH]; [left | right; right]; assumption.
    + right. left. reflexivity.
Qed.

(** Every stored id is below the next id. *)
Lemma get_next_id_above (self : TaskManager) :
  Forall (fun t => id t < get_next_id self) (tasks self).
Proof.
  unfold get_next_id. destruct (tasks self) as [|t r].
  - constructor.
  - rewrite max_from_maximum.
    destruct (maximum_upper (id t) (map id r)) as [H1 H2].
    constructor; [lia |].
    rewrite Forall_map in H2.
    eapply Forall_impl; [| exact H2]. simpl. intros. lia.
Qed.

(** ** Lookup by id *)

Lemma find_by_id_none (x : Z) (l : list task) :
  forall i, find_by_id x i l = None <-> ~ In x (map id l).
Proof.
  induction l as [|t l IH]; intro i; simpl.
  - split; [intros _ [] | reflexivity].
  - destruct (id t =? x) eqn:E.
    + apply Z.eqb_eq in E. split; [discriminate |].
      intro H. exfalso. apply H. left. assumption.
    + apply Z.eqb_neq in E. rewrite IH. split.
      * intros H [H1 | H1]; [contradiction | auto].
      * intros H H1. apply H. right. assumption.
Qed.

(** What a reference returned by the lookup points to: the first task with
    the id, at the position the reference records. *)
Lemma find_by_id_some (x : Z) (l : list task) :
  forall i r, find_by_id x i l = Some r ->
    exists a b, l = a ++ obj r :: b
                /\ pos r = (i + List.length a)%nat
                /\ id (obj r) = x
                /\ Forall (fun t => id t <> x) a.
Proof.
  induction l as [|t l IH]; intros i r H; simpl in H.
  - discriminate.
  - destruct (id t =? x) eqn:E.
    + apply Z.eqb_eq in E. injection H as <-. simpl.
      exists [], l. simpl. repeat split; auto; lia.
    + apply Z.eqb_neq in E.
      destruct (IH _ _ H) as (a & b & -> & Hp & Hid & Ha).
      exists (t :: a), b. simpl. repeat split; auto; lia.
Qed.

Lemma get_task_by_id_in (self : TaskManager) (x : Z) :
  In x (map id (tasks self)) -> exists r, get_task_by_id self x = Some r.
Proof.
  intro H. unfold get_task_by_id.
  destruct (find_by_id x 0 (tasks self)) as [r|] eqn:E.
  - exists r. reflexivity.
  - apply find_by_id_none in E. contradiction.
Qed.

(** ** Mutation through a reference *)

Lemma set_done_ids (l : list task) : forall n, map id (set_done n l) = map id l.
Proof.
  induction l as [|t l IH]; intros [|n]; simpl; try reflexivity.
  rewrite IH. reflexivity.
Qed.

Lemma set_done_at (a b : list task) (t : task) :
  set_done (List.length a) (a ++ t :: b)
  = a ++ {| id := id t; title := title t; priority := priority t;
            isDone := true |} :: b.
Proof.
  induction a as [|e a IH]; simpl.
  - reflexivity.
  - rewrite IH. reflexivity.
Qed.

(** Two task dicts with different ids are not equal. *)
Lemma task_eqb_ids (a b : task) : id a <> id b -> task_eqb a b = false.
Proof.
  intro H. unfold task_eqb, task_json. simpl.
  apply Z.eqb_neq in H. rewrite H. reflexivity.
Qed.

(** [remove] takes out the very dict the lookup returned. *)
Lemma list_remove_found (x : Z) (a b : list task) (r : task_ref) :
  forall i,
    pos r = (i + List.length a)%nat -> id (obj r) = x ->
    Forall (fun t => id t <> x) a ->
    list_remove r i (a ++ obj r :: b) = Returns (a ++ b).
Proof.
  induction a as [|e a IH]; intros i Hp Hid Ha; simpl.
  - simpl in Hp. replace (i =? pos r)%nat with true; [reflexivity |].
    symmetry. apply Nat.eqb_eq. lia.
  - inversion Ha as [|? ? He Ha']; subst.
    replace (i =? pos r)%nat with false.
    + rewrite task_eqb_ids by assumption. simpl.
      rewrite (IH (S i)); auto. simpl in Hp. lia.
    + symmetry. apply Nat.eqb_neq. simpl in Hp. lia.
Qed.

(** [save_tasks] does not touch the list, whether it returns or raises. *)
Lemma tasks_save_tasks (self : TaskManager) :
  tasks (fst (save_tasks self)) = tasks self.
Proof.
  unfold save_tasks. destruct (writable self); [| reflexivity].
  destruct (dump_raises (tasks_json (tasks self))); reflexivity.
Qed.

Lemma tasks_returning {A : Type} (self : TaskManager) (l : list task) (a : A) :
  tasks (fst (returning (save_tasks (with_tasks self l)) a)) = l.
Proof. cbn [returning fst]. rewrite tasks_save_tasks. reflexivity. Qed.

(** When [save_tasks] returns. *)
Lemma save_tasks_returns (self : TaskManager) (l : list task) :
  savable self l <-> snd (save_tasks (with_tasks self l)) = Returns tt.
Proof.
  unfold savable, save_tasks. cbn [with_tasks writable tasks].
  destruct (writable self).
  - destruct (dump_raises (tasks_json l)); cbn [snd]; split.
    + intros [H | H]; discriminate H.
    + intro H. discriminate H.
    + reflexivity.
    + intros _. right. reflexivity.
  - split; [reflexivity | intros _; left; reflexivity].
Qed.

(** [delete_task] on a stored id: the first task with that id leaves the
    list, the rest stays in order, and the list is saved. *)
Lemma delete_task_found (self : TaskManager) (x : Z) (r : task_ref) :
  get_task_by_id self x = Some r ->
  exists a b,
    tasks self = a ++ obj r :: b
    /\ Forall (fun t => id t <> x) a
    /\ id (obj r) = x
    /\ delete_task self x = returning (save_tasks (with_tasks self (a ++ b))) true
    /\ tasks (fst (delete_task self x)) = a ++ b
    /\ pos r = List.length a.
Proof.
  intro H. unfold delete_task. rewrite H.
  destruct (find_by_id_some _ _ _ _ H) as (a & b & E & Hp & Hid & Ha).
  exists a, b.
  assert (R : list_remove r 0 (tasks self) = Returns (a ++ b))
    by (rewrite E; apply (list_remove_found x); auto).
  rewrite R. repeat split; auto. apply tasks_returning.
Qed.

(** C3. Next-id computation: for every store the next id is 1 when the
    collection is empty and otherwise the maximum stored id plus one: it
    agrees with [spec_next_id], and for a non-empty collection the id
    before it is a stored id that no stored id exceeds. *)
Theorem get_next_id_spec (self : TaskManager) :
  get_next_id self = spec_next_id (tasks self)
  /\ match tasks self with
     | [] => get_next_id self = 1
     | _ :: _ =>
         In (get_next_id self - 1) (map id (tasks self))
         /\ Forall (fun t => id t <= get_next_id self - 1) (tasks self)
     end.
Proof.
  unfold get_next_id, spec_next_id.
  destruct (tasks self) as [|t r]; simpl.
  - split; reflexivity.
  - rewrite max_from_maximum. split; [reflexivity |].
    replace (maximum (id t) (map id r) + 1 - 1)
      with (maximum (id t) (map id r)) by lia.
    split.
    + apply (maximum_In (id t) (map id r)).
    + destruct (maximum_upper (id t) (map id r)) as [H1 H2].
      constructor; [assumption |].
      rewrite Forall_map in H2. exact H2.
Qed.

(** ** Uniqueness of ids *)

Lemma create_task_tasks (self : TaskManager) (t p : value) :
  tasks (fst (create_task self t p)) = tasks self ++ [new_task self t p].
Proof. unfold create_task. apply tasks_returning. Qed.

Lemma create_task_unique (self : TaskManager) (t p : value) :
  unique_ids self -> unique_ids (fst (create_task self t p)).
Proof.
  unfold unique_ids. intro H. rewrite create_task_tasks, map_app.
  cbn [map new_task id].
  apply NoDup_rev in H. rewrite <- (rev_involutive (_ ++ _)).
  apply NoDup_rev. rewrite rev_app_distr. cbn [rev app].
  constructor; [| assumption].
  rewrite <- in_rev, in_map_iff. intros (u & E & Hu).
  pose proof (get_next_id_above self) as Hall.
  rewrite Forall_forall in Hall. specialize (Hall _ Hu). lia.
Qed.

Lemma mark_as_done_tasks (self : TaskManager) (x : Z) :
  tasks (fst (mark_as_done self x))
  = match get_task_by_id self x with
    | Some r => set_done (pos r) (tasks self)
    | None => tasks self
    end.
Proof.
  unfold mark_as_done. destruct (get_task_by_id self x); [| reflexivity].
  apply tasks_returning.
Qed.

Lemma mark_as_done_ids (self : TaskManager) (x : Z) :
  map id (tasks (fst (mark_as_done self x))) = map id (tasks self).
Proof.
  rewrite mark_as_done_tasks. destruct (get_task_by_id self x);
    [apply set_done_ids | reflexivity].
Qed.

Lemma delete_task_unique (self : TaskManager) (x : Z) :
  unique_ids self -> unique_ids (fst (delete_task self x)).
Proof.
  unfold unique_ids. intro H.
  destruct (get_task_by_id self x) as [r|] eqn:E.
  - destruct (delete_task_found _ _ _ E) as (a & b & Et & _ & _ & _ & -> & _).
    rewrite Et, map_app in H. simpl in H.
    rewrite map_app. eapply NoDup_remove_1. exact H.
  - unfold delete_task. rewrite E. exact H.
Qed.

Lemma step_unique (self : TaskManager) (o : op) :
  unique_ids self -> unique_ids (step self o).
Proof.
  destruct o; simpl.
  - apply create_task_unique.
  - unfold unique_ids. rewrite mark_as_done_ids. auto.
  - apply delete_task_unique.
Qed.

(** C4. Id uniqueness: from a store whose ids are pairwise distinct, every
    sequence of create, mark-done and delete operations leads to a store
    whose ids are pairwise distinct. *)
Theorem unique_ids_invariant (ops : list op) (self : TaskManager) :
  unique_ids self -> unique_ids (run ops self).
Proof.
  revert self. unfold run.
  induction ops as [|o ops IH]; intros self H; simpl.
  - exact H.
  - apply IH. apply step_unique. exact H.
Qed.

(** ** Ids along a run *)

Lemma step_keeps_ids (self : TaskManager) (o : op) :
  is_delete o = false ->
  incl (map id (tasks self)) (map id (tasks (step self o))).
Proof.
  destruct o; cbn [step is_delete]; intro H.
  - rewrite create_task_tasks, map_app. apply incl_appl, incl_refl.
  - rewrite mark_as_done_ids. apply incl_refl.
  - discriminate.
Qed.

Lemma creations_above (ops : list op) :
  forall self,
    Forall (fun c => Forall (fun t => id t < fst c) (snd c))
           (creations ops self).
Proof.
  induction ops as [|o ops IH]; intro self; simpl.
  - constructor.
  - apply Forall_app. split; [| apply IH].
    destruct o; constructor; try constructor.
    simpl. apply get_next_id_above.
Qed.

(** Without a delete, the ids a run assigns lie above every id the store
    held when the run began. *)
Lemma assigned_above_stored (ops : list op) :
  forall self,
    existsb is_delete ops = false ->
    Forall (fun i => forall x, In x (map id (tasks self)) -> x < i)
           (ids_assigned ops self).
Proof.
  unfold ids_assigned.
  induction ops as [|o ops IH]; intros self H; simpl.
  - constructor.
  - simpl in H. apply orb_false_iff in H. destruct H as [Ho Hr].
    rewrite map_app. apply Forall_app. split.
    + destruct o; simpl; constructor; try constructor.
      intros x Hx. apply in_map_iff in Hx. destruct Hx as (t & <- & Ht).
      pose proof (get_next_id_above self) as Hall.
      rewrite Forall_forall in Hall. apply Hall. exact Ht.
    + specialize (IH (step self o) Hr).
      eapply Forall_impl; [| exact IH]. simpl.
      intros i Hi x Hx. apply Hi. apply (step_keeps_ids self o Ho). exact Hx.
Qed.

Lemma ids_increase_without_delete (ops : list op) :
  forall self, existsb is_delete ops = false -> ids_increase ops self.
Proof.
  unfold ids_increase, ids_assigned.
  induction ops as [|o ops IH]; intros self H; simpl.
  - constructor.
  - simpl in H. apply orb_false_iff in H. destruct H as [Ho Hr].
    specialize (IH (step self o) Hr).
    destruct o as [t p | x | x]; cbn [app map fst]; try exact IH.
    constructor; [exact IH |].
    pose proof (assigned_above_stored ops (step self (Create t p)) Hr) as Hall.
    unfold ids_assigned in Hall.
    eapply Forall_impl; [| exact Hall]. cbn beta.
    intros i Hi. apply Hi. cbn [step].
    rewrite create_task_tasks, map_app. apply in_or_app. right.
    left. reflexivity.
Qed.

(** C1, as amended.  Along every sequence of create, mark-done and delete
    operations from any store, the id given to a new task is strictly
    greater than the id of every task stored at that moment; in a sequence
    without a delete it is therefore strictly greater than every id
    assigned before it and than every id stored at the start. *)
Theorem created_id_above_stored (ops : list op) (self : TaskManager) :
  Forall (fun c => Forall (fun t => id t < fst c) (snd c)) (creations ops self)
  /\ (existsb is_delete ops = false ->
      ids_increase ops self
      /\ Forall (fun i => Forall (fun t => id t < i) (tasks self))
                (ids_assigned ops self)).
Proof.
  split; [apply creations_above |].
  intro H. split; [apply ids_increase_without_delete; exact H |].
  pose proof (assigned_above_stored ops self H) as Hall.
  eapply Forall_impl; [| exact Hall]. simpl.
  intros i Hi. apply Forall_forall. intros t Ht.
  apply Hi. apply in_map. exact Ht.
Qed.

(** ** What a method returns once it has found its task *)

(** [save_tasks()] and [return a]: [a] is returned unless the file can
    be opened and the encoder raises on the list. *)
Lemma saved_result {A : Type} (self : TaskManager) (l : list task) (a : A) :
  snd (returning (save_tasks (with_tasks self l)) a)
  = if writable self
    then match dump_raises (tasks_json l) with
         | None => Returns a
         | Some exn => Raises exn
         end
    else Returns a.
Proof.
  unfold returning, save_tasks. cbn [with_tasks writable tasks].
  destruct (writable self); cbn [snd]; [| reflexivity].
  destruct (dump_raises (tasks_json l)); reflexivity.
Qed.

Lemma saved_returns {A : Type} (self : TaskManager) (l : list task) (a : A) :
  savable self l ->
  snd (returning (save_tasks (with_tasks self l)) a) = Returns a.
Proof.
  rewrite saved_result. intros [H | H]; rewrite H; [reflexivity |].
  destruct (writable self); reflexivity.
Qed.

Lemma saved_raises {A : Type} (self : TaskManager) (l : list task) (a : A)
    (exn : string) :
  writable self = true -> dump_raises (tasks_json l) = Some exn ->
  snd (returning (save_tasks (with_tasks self l)) a) = Raises exn.
Proof. rewrite saved_result. intros -> ->. reflexivity. Qed.

Lemma mark_as_done_found (self : TaskManager) (x : Z) :
  In x (map id (tasks self)) ->
  mark_as_done self x
  = returning (save_tasks
                 (with_tasks self (tasks (fst (mark_as_done self x))))) true.
Proof.
  intro H. destruct (get_task_by_id_in self x H) as [r Hr].
  rewrite mark_as_done_tasks, Hr. unfold mark_as_done. rewrite Hr.
  reflexivity.
Qed.

Lemma delete_task_saves (self : TaskManager) (x : Z) :
  In x (map id (tasks self)) ->
  delete_task self x
  = returning (save_tasks
                 (with_tasks self (tasks (fst (delete_task self x))))) true.
Proof.
  intro H. destruct (get_task_by_id_in self x H) as [r Hr].
  destruct (delete_task_found _ _ _ Hr) as (a & b & _ & _ & _ & E & -> & _).
  exact E.
Qed.

Lemma mark_as_done_unknown (self : TaskManager) (x : Z) :
  ~ In x (map id (tasks self)) -> mark_as_done self x = (self, Returns false).
Proof.
  intro H. unfold mark_as_done, get_task_by_id.
  rewrite (proj2 (find_by_id_none x (tasks self) 0%nat) H). reflexivity.
Qed.

Lemma delete_task_unknown (self : TaskManager) (x : Z) :
  ~ In x (map id (tasks self)) -> delete_task self x = (self, Returns false).
Proof.
  intro H. unfold delete_task, get_task_by_id.
  rewrite (proj2 (find_by_id_none x (tasks self) 0%nat) H). reflexivity.
Qed.

(** ** Requests that reach the completion and the deletion handler *)

Lemma startswith_tasks_slash (p : string) :
  startswith p "/tasks/" = true -> (p =? "/tasks")%string = false.
Proof.
  intro H. destruct (p =? "/tasks")%string eqn:E; [| reflexivity].
  apply String.eqb_eq in E. subst p. vm_compute in H. discriminate.
Qed.

Lemma dispatch_complete (py_int : string -> option Z)
    (self : TaskManager) (req : request) (x : Z) :
  complete_request py_int req x ->
  dispatch py_int self req
  = match mark_as_done self x with
    | (self', Returns true) => (self', Sent (_send_json (PDict []) OK))
    | (self', Returns false) =>
        (self', Sent (_send_error NOT_FOUND "Task not found"))
    | (self', Raises exn) => (self', Crashed exn)
    end.
Proof.
  intros (Hc & Hs & He & Hx).
  unfold dispatch, do_POST, _handle_post_tasks_complete.
  rewrite Hc, (startswith_tasks_slash _ Hs), Hs, He, Hx. reflexivity.
Qed.

Lemma dispatch_delete (py_int : string -> option Z)
    (self : TaskManager) (req : request) (x : Z) :
  delete_request py_int req x ->
  dispatch py_int self req
  = match delete_task self x with
    | (self', Returns true) => (self', Sent (_send_json (PDict []) OK))
    | (self', Returns false) =>
        (self', Sent (_send_error NOT_FOUND "Task not found"))
    | (self', Raises exn) => (self', Crashed exn)
    end.
Proof.
  intros (Hc & Hs & Hx).
  unfold dispatch, do_DELETE, _handle_delete_task.
  rewrite Hc, Hs, Hx. reflexivity.
Qed.

(** The reply of the two handlers on an id that is stored. *)
Lemma dispatch_complete_found (py_int : string -> option Z)
    (self : TaskManager) (req : request) (x : Z) :
  complete_request py_int req x -> In x (map id (tasks self)) ->
  dispatch py_int self req
  = (fst (mark_as_done self x),
     after_call (fun _ => _send_json (PDict []) OK)
                (snd (mark_as_done self x))).
Proof.
  intros Hreq H. rewrite (dispatch_complete _ _ _ _ Hreq).
  rewrite (mark_as_done_found _ _ H). unfold returning. cbn [fst snd].
  destruct (snd (save_tasks _)); reflexivity.
Qed.

Lemma dispatch_delete_found (py_int : string -> option Z)
    (self : TaskManager) (req : request) (x : Z) :
  delete_request py_int req x -> In x (map id (tasks self)) ->
  dispatch py_int self req
  = (fst (delete_task self x),
     after_call (fun _ => _send_json (PDict []) OK)
                (snd (delete_task self x))).
Proof.
  intros Hreq H. rewrite (dispatch_delete _ _ _ _ Hreq).
  rewrite (delete_task_saves _ _ H). unfold returning. cbn [fst snd].
  destruct (snd (save_tasks _)); reflexivity.
Qed.

(** ** Completion *)

Lemma set_done_keeps (t : task) (l : list task) :
  forall n, In t l -> isDone t = true -> In t (set_done n l).
Proof.
  induction l as [|e l IH]; intros n Hin Hd; [destruct Hin |].
  destruct Hin as [-> | Hin].
  - destruct n; simpl; [| left; reflexivity].
    left. destruct t as [i ti p d]. simpl in *. subst d. reflexivity.
  - destruct n; simpl; right; auto.
Qed.

Lemma set_done_done (a b : list task) (t : task) :
  isDone t = true -> set_done (List.length a) (a ++ t :: b) = a ++ t :: b.
Proof.
  intro H. rewrite set_done_at.
  destruct t as [i ti p d]. simpl in *. subst d. reflexivity.
Qed.

(** A save after a save: what the first one wrote is replaced. *)
Lemma save_tasks_over (self : TaskManager) (l l' : list task) :
  save_tasks (with_tasks (fst (save_tasks (with_tasks self l))) l')
  = save_tasks (with_tasks self l').
Proof. destruct self as [t f w]. destruct w; reflexivity. Qed.

(** With distinct ids, the lookup of the id of a stored task returns that
    task. *)
Lemma get_task_by_id_unique (self : TaskManager) (t : task) (r : task_ref) :
  unique_ids self -> In t (tasks self) ->
  get_task_by_id self (id t) = Some r -> obj r = t.
Proof.
  unfold unique_ids. intros Hu Hin Hr.
  destruct (find_by_id_some _ _ _ _ Hr) as (a & b & E & _ & Hid & Ha).
  rewrite E in Hin, Hu. apply in_app_or in Hin.
  destruct Hin as [Hin | [Hin | Hin]].
  - rewrite Forall_forall in Ha. exfalso. apply (Ha _ Hin). reflexivity.
  - assumption.
  - exfalso. rewrite map_app in Hu. simpl in Hu.
    apply NoDup_remove_2 in Hu. apply Hu. apply in_or_app. right.
    rewrite Hid. apply in_map. exact Hin.
Qed.

Lemma find_by_id_at (x : Z) (a b : list task) (t : task) :
  Forall (fun e => id e <> x) a -> id t = x ->
  forall i, find_by_id x i (a ++ t :: b)
            = Some {| pos := i + List.length a; obj := t |}.
Proof.
  intros Ha Hid. induction a as [|e a IH]; intro i; simpl.
  - rewrite Hid, Z.eqb_refl. f_equal. f_equal. lia.
  - inversion Ha as [|? ? He Ha']; subst.
    apply Z.eqb_neq in He. rewrite He, (IH Ha' (S i)).
    f_equal. f_equal. lia.
Qed.

(** [mark_as_done] a second time changes nothing and ends as the first
    call did. *)
Lemma mark_as_done_twice (self : TaskManager) (x : Z) :
  mark_as_done (fst (mark_as_done self x)) x = mark_as_done self x.
Proof.
  destruct (get_task_by_id self x) as [r|] eqn:E.
  - unfold mark_as_done at 2 3. rewrite E. cbn [returning fst].
    destruct (find_by_id_some _ _ _ _ E) as (a & b & Et & Hp & Hid & Ha).
    simpl in Hp. rewrite Hp, Et, set_done_at.
    set (t' := {| id := id (obj r); title := title (obj r);
                  priority := priority (obj r); isDone := true |}).
    set (s' := fst (save_tasks (with_tasks self (a ++ t' :: b)))).
    assert (Hs : tasks s' = a ++ t' :: b)
      by (unfold s'; rewrite tasks_save_tasks; reflexivity).
    unfold mark_as_done, get_task_by_id.
    rewrite Hs, (find_by_id_at x a b t' Ha Hid 0%nat). cbn [pos Nat.add].
    rewrite (set_done_done a b t') by reflexivity.
    unfold s'. rewrite save_tasks_over. reflexivity.
  - unfold mark_as_done. rewrite E. cbn [fst]. rewrite E. reflexivity.
Qed.

(** Completing a task that is done already, whatever the encoder does:
    the task stays in the list as it is, with distinct ids the list is
    not changed at all, and a further completion ends as this one.  The
    call returns [True], and the endpoint answers 200 with [{}], when
    [save_tasks] returns; when the file can be opened and the encoder
    raises on the list, its exception leaves the call and the handler,
    and nothing is sent. *)
Lemma complete_done_task (py_int : string -> option Z)
    (self : TaskManager) (t : task) :
  In t (tasks self) -> isDone t = true ->
  let l := tasks (fst (mark_as_done self (id t))) in
  In t l
  /\ (unique_ids self -> l = tasks self)
  /\ mark_as_done (fst (mark_as_done self (id t))) (id t)
     = mark_as_done self (id t)
  /\ (savable self l ->
        snd (mark_as_done self (id t)) = Returns true
        /\ forall req, complete_request py_int req (id t) ->
             snd (dispatch py_int self req) = Sent (_send_json (PDict []) OK))
  /\ (forall exn,
        writable self = true -> dump_raises (tasks_json l) = Some exn ->
        snd (mark_as_done self (id t)) = Raises exn
        /\ forall req, complete_request py_int req (id t) ->
             snd (dispatch py_int self req) = Crashed exn).
Proof.
  intros Hin Hd l.
  pose proof (in_map id _ _ Hin) as Hx.
  destruct (get_task_by_id_in self (id t) Hx) as [r Hr].
  assert (Hl : l = set_done (pos r) (tasks self))
    by (unfold l; rewrite mark_as_done_tasks, Hr; reflexivity).
  split; [rewrite Hl; apply set_done_keeps; assumption |].
  split; [| split; [apply mark_as_done_twice | split]].
  - intro Hu. pose proof (get_task_by_id_unique _ _ _ Hu Hin Hr) as Ho.
    destruct (find_by_id_some _ _ _ _ Hr) as (a & b & Et & Hp & _ & _).
    simpl in Hp. rewrite Hl, Hp. rewrite Et at 1. rewrite Ho.
    rewrite set_done_done by assumption. rewrite <- Ho, <- Et. reflexivity.
  - intro Hs.
    assert (Hm : snd (mark_as_done self (id t)) = Returns true)
      by (rewrite (mark_as_done_found _ _ Hx); apply saved_returns; exact Hs).
    split; [exact Hm |]. intros req Hreq.
    rewrite (dispatch_complete_found _ _ _ _ Hreq Hx). cbn [snd].
    rewrite Hm. reflexivity.
  - intros exn Hw He.
    assert (Hm : snd (mark_as_done self (id t)) = Raises exn)
      by (rewrite (mark_as_done_found _ _ Hx); apply saved_raises; assumption).
    split; [exact Hm |]. intros req Hreq.
    rewrite (dispatch_complete_found _ _ _ _ Hreq Hx). cbn [snd].
    rewrite Hm. reflexivity.
Qed.

(** ** Unknown and known ids *)

(** For an id no stored task has, both methods return [False] and leave
    the store, list and file, as it was, and both endpoints answer 404
    "Task not found". *)
Lemma unknown_id_leaves_store (py_int : string -> option Z)
    (self : TaskManager) (x : Z) :
  ~ In x (map id (tasks self)) ->
  mark_as_done self x = (self, Returns false)
  /\ delete_task self x = (self, Returns false)
  /\ (forall req, complete_request py_int req x ->
        dispatch py_int self req
        = (self, Sent (_send_error NOT_FOUND "Task not found")))
  /\ (forall req, delete_request py_int req x ->
        dispatch py_int self req
        = (self, Sent (_send_error NOT_FOUND "Task not found")))
  /\ complete (_send_error NOT_FOUND "Task not found").
Proof.
  intro H.
  pose proof (mark_as_done_unknown _ _ H) as Hm.
  pose proof (delete_task_unknown _ _ H) as Hd.
  split; [exact Hm |]. split; [exact Hd |]. split; [| split].
  - intros req Hreq. rewrite (dispatch_complete _ _ _ _ Hreq), Hm. reflexivity.
  - intros req Hreq. rewrite (dispatch_delete _ _ _ _ Hreq), Hd. reflexivity.
  - apply dumps_message. reflexivity.
Qed.

(** For an id a stored task has, the first task with the id is
    completed, or removed, in the list; then [save_tasks] decides: when
    it returns the method returns [True] and the endpoint answers 200
    with [{}], when it raises the exception leaves method and handler
    and nothing is sent. *)
Lemma known_id_is_served (py_int : string -> option Z)
    (self : TaskManager) (x : Z) :
  In x (map id (tasks self)) ->
  exists a t b,
    tasks self = a ++ t :: b /\ id t = x /\ Forall (fun e => id e <> x) a
    /\ tasks (fst (mark_as_done self x)) = a ++ completed t :: b
    /\ tasks (fst (delete_task self x)) = a ++ b
    /\ (savable self (a ++ completed t :: b) ->
          snd (mark_as_done self x) = Returns true
          /\ forall req, complete_request py_int req x ->
               snd (dispatch py_int self req)
               = Sent (_send_json (PDict []) OK))
    /\ (savable self (a ++ b) ->
          snd (delete_task self x) = Returns true
          /\ forall req, delete_request py_int req x ->
               snd (dispatch py_int self req)
               = Sent (_send_json (PDict []) OK))
    /\ (forall exn, writable self = true ->
          dump_raises (tasks_json (a ++ completed t :: b)) = Some exn ->
          snd (mark_as_done self x) = Raises exn
          /\ forall req, complete_request py_int req x ->
               snd (dispatch py_int self req) = Crashed exn)
    /\ (forall exn, writable self = true ->
          dump_raises (tasks_json (a ++ b)) = Some exn ->
          snd (delete_task self x) = Raises exn
          /\ forall req, delete_request py_int req x ->
               snd (dispatch py_int self req) = Crashed exn).
Proof.
  intro H. destruct (get_task_by_id_in self x H) as [r Hr].
  destruct (delete_task_found _ _ _ Hr)
    as (a & b & Et & Ha & Hid & _ & Hd & Hp).
  assert (Hm : tasks (fst (mark_as_done self x)) = a ++ completed (obj r) :: b).
  { rewrite mark_as_done_tasks, Hr, Hp, Et. apply set_done_at. }
  exists a, (obj r), b.
  split; [exact Et |]. split; [exact Hid |]. split; [exact Ha |].
  split; [exact Hm |]. split; [exact Hd |].
  rewrite <- Hm, <- Hd. repeat split.
  - rewrite (mark_as_done_found _ _ H). apply saved_returns. assumption.
  - intros req Hreq. rewrite (dispatch_complete_found _ _ _ _ Hreq H).
    cbn [snd]. rewrite (mark_as_done_found _ _ H), saved_returns by assumption.
    reflexivity.
  - rewrite (delete_task_saves _ _ H). apply saved_returns. assumption.
  - intros req Hreq. rewrite (dispatch_delete_found _ _ _ _ Hreq H).
    cbn [snd]. rewrite (delete_task_saves _ _ H), saved_returns by assumption.
    reflexivity.
  - rewrite (mark_as_done_found _ _ H). apply saved_raises; assumption.
  - intros req Hreq. rewrite (dispatch_complete_found _ _ _ _ Hreq H).
    cbn [snd].
    rewrite (mark_as_done_found _ _ H), (saved_raises _ _ _ exn) by assumption.
    reflexivity.
  - rewrite (delete_task_saves _ _ H). apply saved_raises; assumption.
  - intros req Hreq. rewrite (dispatch_delete_found _ _ _ _ Hreq H).
    cbn [snd].
    rewrite (delete_task_saves _ _ H), (saved_raises _ _ _ exn) by assumption.
    reflexivity.
Qed.

(** ** Request bodies *)

Lemma parse_body (py_int : string -> option Z) (req : request) (v : value) :
  body_is py_int req v -> _parse_json_body py_int req = Returns v.
Proof.
  intros [(n & E & Hn & Hl) Hp]. unfold _parse_json_body.
  rewrite E, Hp. apply Z.eqb_neq in Hn. rewrite Hn. reflexivity.
Qed.

Lemma eqb_str (v : value) (s : string) : Py.eqb v (PStr s) = true <-> v = PStr s.
Proof.
  destruct v; simpl; try (split; [discriminate | discriminate]).
  rewrite String.eqb_eq. split; [intros -> | intros [= ->]]; reflexivity.
Qed.

(** The priorities [_handle_post_tasks] lets through. *)
Lemma in_strs_priorities (v : value) :
  in_strs v ["low"; "normal"; "high"] = true
  <-> v = PStr "low" \/ v = PStr "normal" \/ v = PStr "high".
Proof.
  unfold in_strs. simpl. rewrite !orb_true_iff, !eqb_str.
  split; [intros [H | [H | [H | H]]] | intros [H | [H | H]]]; auto.
  discriminate.
Qed.

(** The create handler on a body that is a JSON object: the title is
    checked first, the priority second, and [create_task] is called with
    what passes both. *)
Lemma post_tasks_on_object (py_int : string -> option Z)
    (self : TaskManager) (req : request) (d : list (string * value)) :
  body_is py_int req (PDict d) ->
  let title := match lookup "title" d with Some v => v | None => PNone end in
  let priority :=
    match lookup "priority" d with Some v => v | None => PStr "normal" end in
  _handle_post_tasks py_int self req
  = if negb (truthy title)
    then (self, Sent (_send_error BAD_REQUEST "title is required"))
    else if negb (in_strs priority ["low"; "normal"; "high"])
    then (self, Sent (_send_error BAD_REQUEST
                        "priority must be low, normal, or high"))
    else (fst (create_task self title priority),
          after_call (fun task => _send_json (task_json task) CREATED)
                     (snd (create_task self title priority))).
Proof.
  intro H. unfold _handle_post_tasks. rewrite (parse_body _ _ _ H).
  cbn [is_none Py.get].
  destruct (lookup "title" d) as [t|]; destruct (lookup "priority" d) as [p|];
    cbv zeta;
    repeat match goal with
           | |- context [if negb ?b then _ else _] => destruct b; cbn [negb]
           end;
    try reflexivity;
    match goal with
    | |- context [create_task ?s ?t ?p] =>
        destruct (create_task s t p) as [s' [k|e]]; reflexivity
    end.
Qed.

(** ** What [_send_json] gets out *)

Lemma send_json_whole (data : value) (code : Z) :
  is_none data = false -> dumps_raises data = None ->
  _send_json data code
  = {| status := code; content_type := "application/json";
       body := Some data; raised := None |}.
Proof. intros Hn Hd. unfold _send_json. rewrite Hn, Hd. reflexivity. Qed.

Lemma send_error_whole (code : Z) (message : string) :
  In (code, message) error_replies ->
  _send_error code message
  = {| status := code; content_type := "application/json";
       body := Some (PDict [("error", PStr message)]); raised := None |}.
Proof.
  intro H. apply send_json_whole; [reflexivity |].
  apply dumps_message.
  repeat (destruct H as [[= <- <-] | H]; [reflexivity |]). destruct H.
Qed.

(** ** Create and list *)

(** C9. Create/list round trip and order: after [create_task] the list
    [get_all_tasks] returns is the former list, in its order, followed
    by the created task; the created task has the next id, the title and
    the priority given and [isDone] false, and is the only task of the
    list with its id.  This holds whatever [save_tasks] does; the call
    returns that task, and it does return when [save_tasks] returns. *)
Theorem create_then_list (self : TaskManager) (t p : value) :
  let self' := fst (create_task self t p) in
  let new := new_task self t p in
  get_all_tasks self' = get_all_tasks self ++ [new]
  /\ new = {| id := get_next_id self; title := t; priority := p;
              isDone := false |}
  /\ filter (fun u => id u =? id new) (get_all_tasks self') = [new]
  /\ (forall k, snd (create_task self t p) = Returns k -> k = new)
  /\ (savable self (get_all_tasks self ++ [new]) ->
      snd (create_task self t p) = Returns new).
Proof.
  intros self' new.
  assert (Hl : get_all_tasks self' = get_all_tasks self ++ [new])
    by apply create_task_tasks.
  split; [exact Hl |]. split; [reflexivity |]. split; [| split].
  - assert (Hf : filter (fun u => id u =? id new) (get_all_tasks self) = []).
    { pose proof (get_next_id_above self) as Hall.
      change (id new) with (get_next_id self). unfold get_all_tasks.
      induction Hall as [|u l Hu _ IH]; cbn [filter].
      - reflexivity.
      - replace (id u =? get_next_id self) with false; [exact IH |].
        symmetry. apply Z.eqb_neq. lia. }
    rewrite Hl, filter_app, Hf. cbn [filter app].
    rewrite Z.eqb_refl. reflexivity.
  - intros k Hk. unfold create_task, returning in Hk. cbn [snd] in Hk.
    destruct (snd (save_tasks _)); [| discriminate Hk].
    injection Hk as <-. reflexivity.
  - intro Hs. unfold create_task. apply saved_returns. exact Hs.
Qed.

(** The same over HTTP.  [GET /tasks] on the store the create left
    starts a 200 with that list, and a POST with the title and one of
    the three priorities ends as [create_task] does: 201 with the task
    when it returns, the exception when [save_tasks] raises, the task
    being in the list all the same. *)
Lemma create_over_http (py_int : string -> option Z)
    (self : TaskManager) (t p : value) :
  let self' := fst (create_task self t p) in
  let new := new_task self t p in
  (forall req, command req = "GET" -> path req = "/tasks" ->
     dispatch py_int self' req
     = (self', Sent (_send_json
                       (PList (map task_json (get_all_tasks self)
                               ++ [task_json new])) OK)))
  /\ (forall req d, command req = "POST" -> path req = "/tasks" ->
        body_is py_int req (PDict d) ->
        lookup "title" d = Some t -> truthy t = true ->
        lookup "priority" d = Some p ->
        in_strs p ["low"; "normal"; "high"] = true ->
        dispatch py_int self req
        = (self', after_call (fun task => _send_json (task_json task) CREATED)
                             (snd (create_task self t p))))
  /\ (forall exn, writable self = true ->
        dump_raises (tasks_json (tasks self ++ [new])) = Some exn ->
        snd (create_task self t p) = Raises exn).
Proof.
  intros self' new.
  assert (Hl : get_all_tasks self' = get_all_tasks self ++ [new])
    by apply create_task_tasks.
  split; [| split].
  - intros req Hc Hp. unfold dispatch, do_GET, _handle_get_tasks.
    rewrite Hc, Hp. simpl String.eqb. cbv iota.
    rewrite Hl. unfold tasks_json. rewrite map_app. reflexivity.
  - intros req d Hc Hp Hb Ht Htt Hpr Hin.
    unfold dispatch, do_POST. rewrite Hc, Hp. simpl String.eqb. cbv iota.
    rewrite (post_tasks_on_object _ _ _ _ Hb), Ht, Hpr. cbv zeta.
    rewrite Htt, Hin. reflexivity.
  - intros exn Hw He. unfold create_task. apply saved_raises; assumption.
Qed.

(** ** Routing *)

(** C5, as amended.  A request that matches none of the four routes is
    answered 404 with the error "Route not found" and leaves the store as
    it was when its method is GET, POST or DELETE; for any other method
    the handler class has no method and the base class answers 501. *)
Theorem unrouted_is_not_found (py_int : string -> option Z)
    (self : TaskManager) (req : request) :
  routed req = false ->
  dispatch py_int self req
  = (self, if has_method (command req)
           then Sent (_send_error NOT_FOUND "Route not found")
           else LibraryError NOT_IMPLEMENTED).
Proof.
  unfold routed, dispatch, has_method, do_GET, do_POST, do_DELETE.
  destruct (command req =? "GET")%string eqn:G;
    destruct (command req =? "POST")%string eqn:P;
    destruct (command req =? "DELETE")%string eqn:D;
    destruct (path req =? "/tasks")%string;
    destruct (startswith (path req) "/tasks/");
    destruct (endswith (path req) "/complete");
    simpl; intro H; try discriminate H; try reflexivity.
Qed.

(** ** Start-up *)

Lemma task_json_inj (a b : task) : task_json a = task_json b -> a = b.
Proof.
  destruct a, b. unfold task_json. simpl.
  intros [= -> -> -> ->]. reflexivity.
Qed.

Lemma tasks_json_inj (l : list task) :
  forall l', tasks_json l = tasks_json l' -> l = l'.
Proof.
  unfold tasks_json.
  induction l as [|a l IH]; intros [|b l'] H; cbn [map] in H;
    try discriminate H; try reflexivity.
  assert (Hab : task_json a = task_json b) by congruence.
  assert (Hl : map task_json l = map task_json l') by congruence.
  apply task_json_inj in Hab. subst b. f_equal. apply IH. f_equal. exact Hl.
Qed.

Lemma as_tasks_json (l : list task) : as_tasks (tasks_json l) = Some l.
Proof.
  unfold as_tasks, tasks_json.
  induction l as [|[i t p d] l IH]; [reflexivity |].
  cbn [map as_task_list]. rewrite IH. reflexivity.
Qed.

(** A whitespace character is taken off the front of a text. *)
Lemma space_head_utf8 (cp : Z) (r : string) :
  isspace cp = true -> space_head (utf8 cp ++ r) = Some r.
Proof.
  intro H.
  assert (E : cp = 9 \/ cp = 10 \/ cp = 11 \/ cp = 12 \/ cp = 13 \/ cp = 28
              \/ cp = 29 \/ cp = 30 \/ cp = 31 \/ cp = 32 \/ cp = 133
              \/ cp = 160 \/ cp = 5760 \/ cp = 8192 \/ cp = 8193
              \/ cp = 8194 \/ cp = 8195 \/ cp = 8196 \/ cp = 8197
              \/ cp = 8198 \/ cp = 8199 \/ cp = 8200 \/ cp = 8201
              \/ cp = 8202 \/ cp = 8232 \/ cp = 8233 \/ cp = 8239
              \/ cp = 8287 \/ cp = 12288).
  { unfold isspace in H.
    repeat rewrite ?orb_true_iff, ?andb_true_iff, ?Z.leb_le, ?Z.eqb_eq in H.
    lia. }
  repeat (destruct E as [-> | E]; [reflexivity |]). subst cp. reflexivity.
Qed.

Lemma drop_spaces (cps : list Z) :
  forallb isspace cps = true ->
  forall n, (List.length cps <= n)%nat ->
            drop_while space_head n (text_of cps) = "".
Proof.
  induction cps as [|cp cps IH]; intros H n Hn.
  - destruct n; reflexivity.
  - cbn [forallb] in H. apply andb_true_iff in H. destruct H as [Hc Hr].
    destruct n as [|n]; [simpl in Hn; lia |].
    cbn [text_of fold_right drop_while].
    rewrite (space_head_utf8 cp _ Hc). apply IH; [exact Hr |].
    simpl in Hn. lia.
Qed.

Lemma length_text_of (cps : list Z) :
  (List.length cps <= String.length (text_of cps))%nat.
Proof.
  induction cps as [|cp cps IH]; [apply le_n |].
  cbn [text_of fold_right List.length].
  assert (H : forall s, (S (String.length s)
                         <= String.length (utf8 cp ++ s)%string)%nat).
  { intro s. unfold utf8.
    destruct (cp <? 128); [| destruct (cp <? 2048)]; simpl; lia. }
  specialize (H (fold_right (fun cp s => (utf8 cp ++ s)%string) "" cps)).
  unfold text_of in IH. lia.
Qed.

(** [strip] leaves nothing of a text of whitespace. *)
Lemma strip_space_blank (cps : list Z) :
  forallb isspace cps = true -> strip_space (text_of cps) = "".
Proof.
  intro H. unfold strip_space.
  rewrite (drop_spaces cps H _ (length_text_of cps)). reflexivity.
Qed.

(** C6, as amended.  Start-up binds the empty collection, and raises
    nothing, when the file is absent, cannot be read, is empty or holds
    whitespace only, or does not decode as JSON; content that decodes as
    JSON is bound as it is, so a persisted task array yields exactly
    that collection, task for task. *)
Theorem load_tasks_fallback :
  load_tasks Missing = Returns (PList [])
  /\ load_tasks Unreadable = Returns (PList [])
  /\ (forall cps decoded, forallb isspace cps = true ->
        load_tasks (Content (text_of cps) decoded) = Returns (PList []))
  /\ (forall text, load_tasks (Content text DecodeError) = Returns (PList []))
  /\ (forall text v, strip_space text <> "" ->
        load_tasks (Content text (Loaded v)) = Returns v)
  /\ (forall text l l', strip_space text <> "" ->
        (load_tasks (Content text (Loaded (tasks_json l)))
         = Returns (tasks_json l') <-> l = l'))
  /\ (forall l, as_tasks (tasks_json l) = Some l).
Proof.
  assert (Hk : forall text v, strip_space text <> "" ->
                 load_tasks (Content text (Loaded v)) = Returns v).
  { intros text v H. unfold load_tasks.
    apply String.eqb_neq in H. rewrite H. reflexivity. }
  split; [reflexivity |]. split; [reflexivity |].
  split; [| split; [| split; [exact Hk | split; [| exact as_tasks_json]]]].
  - intros cps decoded H. unfold load_tasks.
    rewrite (strip_space_blank cps H). reflexivity.
  - intro text. unfold load_tasks.
    destruct (strip_space text =? "")%string; reflexivity.
  - intros text l l' H. rewrite (Hk _ _ H). split.
    + intros [= E]. apply tasks_json_inj. unfold tasks_json. f_equal. exact E.
    + intros ->. reflexivity.
Qed.

(** ** Bodies that are not objects *)

(** C10, as amended.  A POST to [/tasks] whose body is well-formed JSON
    and neither an object nor [null] gets no response: the body is parsed
    to the value that is not a dict, [data.get] raises [AttributeError]
    out of the handler and the store is as it was.  The body [null] is
    parsed to [None] and answered 400 "Invalid JSON". *)
Theorem non_object_body (py_int : string -> option Z)
    (self : TaskManager) (req : request) (v : value) :
  command req = "POST" -> path req = "/tasks" ->
  body_is py_int req v -> is_dict v = false ->
  _parse_json_body py_int req = Returns v
  /\ dispatch py_int self req
     = (self, if is_none v
              then Sent (_send_error BAD_REQUEST "Invalid JSON")
              else Crashed "AttributeError").
Proof.
  intros Hc Hp Hb Hd. split; [apply parse_body; exact Hb |].
  unfold dispatch, do_POST, _handle_post_tasks.
  rewrite Hc, Hp, (parse_body _ _ _ Hb). simpl String.eqb. cbv iota.
  destruct v; try discriminate Hd; reflexivity.
Qed.

(** ** The checks of the create handler *)

(** Outside the bodies that are JSON but no object, [POST /tasks] goes
    through its checks in order: no usable body, then the title, then the
    priority, then [create_task] with the priority defaulted to "normal";
    the reply to a creation is 201 with the task unless [save_tasks]
    raises ([create_over_http]). *)
Lemma post_tasks_checks (py_int : string -> option Z)
    (self : TaskManager) (req : request) :
  command req = "POST" -> path req = "/tasks" ->
  (payload req = DecodeError ->
     dispatch py_int self req
     = (self, Sent (_send_error BAD_REQUEST "Invalid JSON")))
  /\ (forall d, body_is py_int req (PDict d) ->
        ((lookup "title" d = None
          \/ exists t, lookup "title" d = Some t /\ truthy t = false) ->
           dispatch py_int self req
           = (self, Sent (_send_error BAD_REQUEST "title is required")))
        /\ (forall t q, lookup "title" d = Some t -> truthy t = true ->
              lookup "priority" d = Some q ->
              q <> PStr "low" -> q <> PStr "normal" -> q <> PStr "high" ->
              dispatch py_int self req
              = (self, Sent (_send_error BAD_REQUEST
                               "priority must be low, normal, or high")))
        /\ (forall t, lookup "title" d = Some t -> truthy t = true ->
              lookup "priority" d = None ->
              dispatch py_int self req
              = (fst (create_task self t (PStr "normal")),
                 after_call
                   (fun task => _send_json (task_json task) CREATED)
                   (snd (create_task self t (PStr "normal")))))
        /\ (forall t q, lookup "title" d = Some t -> truthy t = true ->
              lookup "priority" d = Some q ->
              q = PStr "low" \/ q = PStr "normal" \/ q = PStr "high" ->
              dispatch py_int self req
              = (fst (create_task self t q),
                 after_call
                   (fun task => _send_json (task_json task) CREATED)
                   (snd (create_task self t q))))).
Proof.
  intros Hc Hp.
  assert (Hd : dispatch py_int self req = _handle_post_tasks py_int self req).
  { unfold dispatch, do_POST. rewrite Hc, Hp. reflexivity. }
  rewrite Hd. split.
  - intro E. unfold _handle_post_tasks, _parse_json_body. rewrite E.
    destruct (match content_length req with
              | Some s => py_int s
              | None => Some 0
              end) as [n|]; [| reflexivity].
    destruct (n =? 0); reflexivity.
  - intros d Hb. rewrite (post_tasks_on_object _ _ _ _ Hb). cbv zeta.
    repeat split.
    + intros [E | (t & E & Ht)]; rewrite E; [reflexivity |].
      rewrite Ht. reflexivity.
    + intros t q Et Ht Eq N1 N2 N3. rewrite Et, Eq, Ht.
      destruct (in_strs q ["low"; "normal"; "high"]) eqn:I; [| reflexivity].
      apply in_strs_priorities in I. destruct I as [I | [I | I]]; contradiction.
    + intros t Et Ht Eq. rewrite Et, Eq, Ht. reflexivity.
    + intros t q Et Ht Eq I. rewrite Et, Eq, Ht.
      apply in_strs_priorities in I. rewrite I. reflexivity.
Qed.

(** * Further properties of the code *)

(** ** Paths *)

Lemma append_assoc (a b c : string) :
  ((a ++ b) ++ c)%string = (a ++ (b ++ c))%string.
Proof. induction a; simpl; congruence. Qed.

Lemma rev_string_acc (s : string) :
  forall acc, rev_string s acc = (rev_string s "" ++ acc)%string.
Proof.
  induction s as [|c s IH]; intro acc; simpl.
  - reflexivity.
  - rewrite IH, (IH (String c "")), append_assoc. reflexivity.
Qed.

Lemma rev_string_app (a b : string) :
  rev_string (a ++ b)%string ""
  = (rev_string b "" ++ rev_string a "")%string.
Proof.
  induction a as [|c a IH]; simpl.
  - induction (rev_string b "") as [|x r IHr]; simpl; congruence.
  - rewrite (rev_string_acc (a ++ b) (String c "")), IH.
    rewrite (rev_string_acc a (String c "")), append_assoc. reflexivity.
Qed.

Lemma rev_string_involutive (s : string) :
  rev_string (rev_string s "") "" = s.
Proof.
  induction s as [|c s IH]; simpl.
  - reflexivity.
  - rewrite (rev_string_acc s (String c "")), rev_string_app, IH.
    reflexivity.
Qed.

Lemma append_empty_r (s : string) : (s ++ "")%string = s.
Proof. induction s; simpl; congruence. Qed.

Lemma contains_app (c : ascii) (a b : string) :
  contains c (a ++ b)%string = contains c a || contains c b.
Proof.
  induction a as [|x a IH]; simpl.
  - reflexivity.
  - rewrite IH, orb_assoc. reflexivity.
Qed.

Lemma contains_rev (c : ascii) (s : string) :
  contains c (rev_string s "") = contains c s.
Proof.
  induction s as [|x s IH]; simpl.
  - reflexivity.
  - rewrite (rev_string_acc s (String x "")), contains_app, IH. simpl.
    rewrite orb_false_r, orb_comm. reflexivity.
Qed.

Lemma lstrip_without (c : ascii) (s : string) :
  contains c s = false -> lstrip c s = s.
Proof.
  destruct s as [|x s]; simpl; [reflexivity |].
  intro H. apply orb_false_iff in H. destruct H as [H _].
  rewrite H. reflexivity.
Qed.

Lemma lstrip_app (c : ascii) (u v : string) :
  lstrip c (u ++ v)%string
  = match lstrip c u with
    | EmptyString => lstrip c v
    | w => (w ++ v)%string
    end.
Proof.
  induction u as [|x u IH]; simpl.
  - reflexivity.
  - destruct (Ascii.eqb x c); [exact IH | reflexivity].
Qed.

(** [s.rstrip(c)], the second half of [strip]. *)
Lemma strip_rstrip (c : ascii) (s : string) :
  strip c s = rev_string (lstrip c (rev_string (lstrip c s) "")) "".
Proof. reflexivity. Qed.

Lemma rstrip_app (c : ascii) (a b : string) :
  rev_string (lstrip c (rev_string (a ++ b)%string "")) ""
  = match rev_string (lstrip c (rev_string b "")) "" with
    | EmptyString => rev_string (lstrip c (rev_string a "")) ""
    | w => (a ++ w)%string
    end.
Proof.
  rewrite rev_string_app, lstrip_app.
  destruct (lstrip c (rev_string b "")) as [|x w] eqn:E.
  - reflexivity.
  - rewrite rev_string_app, rev_string_involutive.
    destruct (rev_string (String x w) "") eqn:R; [| reflexivity].
    exfalso. apply (f_equal (fun u => rev_string u "")) in R.
    rewrite rev_string_involutive in R. discriminate R.
Qed.

Lemma rstrip_without (c : ascii) (s : string) :
  contains c s = false ->
  rev_string (lstrip c (rev_string s "")) "" = s.
Proof.
  intro H. rewrite lstrip_without by (rewrite contains_rev; exact H).
  apply rev_string_involutive.
Qed.

Lemma split_segment (c : ascii) (a : string) :
  contains c a = false ->
  split c a = [a] /\ forall b, split c (a ++ String c b) = a :: split c b.
Proof.
  induction a as [|x a IH]; simpl; intro H.
  - split; [reflexivity |]. intro b. rewrite Ascii.eqb_refl. reflexivity.
  - apply orb_false_iff in H. destruct H as [Hx Ha].
    destruct (IH Ha) as [E1 E2]. rewrite Hx. split.
    + rewrite E1. reflexivity.
    + intro b. rewrite E2. reflexivity.
Qed.

Lemma startswith_app (p s : string) : startswith (p ++ s) p = true.
Proof.
  unfold startswith. induction p as [|a p IH]; simpl.
  - destruct s; reflexivity.
  - destruct (ascii_dec a a) as [_ | N]; [exact IH | contradiction].
Qed.

Lemma endswith_app (s p : string) : endswith (s ++ p) p = true.
Proof.
  unfold endswith. rewrite rev_string_app. apply startswith_app.
Qed.

(** The parts of a path under [/tasks/]: after the strip and the split
    the list begins with [tasks] and the segment. *)
Lemma parts_of_task_path (seg tail : string) :
  segment seg -> tail = "" \/ (exists rest, tail = String "/" rest) ->
  exists more,
    split "/" (strip "/" ("/tasks/" ++ seg ++ tail)) = "tasks" :: seg :: more.
Proof.
  intros [Hne Hns] Ht. rewrite strip_rstrip.
  change (lstrip "/" ("/tasks/" ++ seg ++ tail))
    with ("tasks/" ++ (seg ++ tail))%string.
  assert (Hseg : rev_string (lstrip "/" (rev_string seg "")) "" = seg)
    by (apply rstrip_without; exact Hns).
  assert (Hhead : forall w, split "/" ("tasks/" ++ w) = "tasks" :: split "/" w)
    by (intro w; reflexivity).
  assert (Hkeep : forall tl,
             rev_string (lstrip "/" (rev_string ("tasks/" ++ (seg ++ tl)) "")) ""
             = match rev_string (lstrip "/" (rev_string tl "")) "" with
               | EmptyString => ("tasks/" ++ seg)%string
               | w => ("tasks/" ++ (seg ++ w))%string
               end).
  { intro tl.
    rewrite (rstrip_app "/" "tasks/" (seg ++ tl)), (rstrip_app "/" seg tl).
    destruct (rev_string (lstrip "/" (rev_string tl "")) "") as [|y w].
    - rewrite Hseg. destruct seg; [contradiction | reflexivity].
    - destruct seg; [contradiction | reflexivity]. }
  rewrite Hkeep.
  destruct Ht as [-> | [rest ->]].
  - simpl rev_string. simpl lstrip. cbv iota.
    exists []. rewrite (Hhead seg), (proj1 (split_segment "/" seg Hns)).
    reflexivity.
  - change (String "/" rest) with ("/" ++ rest)%string.
    rewrite (rstrip_app "/" "/" rest).
    destruct (rev_string (lstrip "/" (rev_string rest "")) "") as [|y w].
    + change (rev_string (lstrip "/" (rev_string "/" "")) "") with "".
      cbv iota. exists [].
      rewrite (Hhead seg), (proj1 (split_segment "/" seg Hns)). reflexivity.
    + change ("/" ++ String y w)%string with (String "/" (String y w)).
      cbv iota. exists (split "/" (String y w)).
      rewrite (Hhead (seg ++ String "/" (String y w))%string).
      rewrite (proj2 (split_segment "/" seg Hns)). reflexivity.
Qed.

(** X1. The id of a path: for a segment that is not empty and has no
    slash, [/tasks/<segment>], [/tasks/<segment>/complete] and
    [/tasks/<segment>/<anything>] all yield [int(<segment>)]; what follows
    the segment is never looked at.  The completion path passes the two
    tests of [do_POST]. *)
Theorem task_path_id (py_int : string -> option Z) (seg rest : string) :
  segment seg ->
  _extract_task_id_from_path py_int ("/tasks/" ++ seg) = py_int seg
  /\ _extract_task_id_from_path py_int ("/tasks/" ++ seg ++ "/complete")
     = py_int seg
  /\ _extract_task_id_from_path py_int ("/tasks/" ++ seg ++ "/" ++ rest)
     = py_int seg
  /\ startswith ("/tasks/" ++ seg ++ "/complete") "/tasks/" = true
  /\ endswith ("/tasks/" ++ seg ++ "/complete") "/complete" = true.
Proof.
  intro Hs. unfold _extract_task_id_from_path.
  destruct (parts_of_task_path seg "" Hs (or_introl eq_refl)) as [m1 E1].
  destruct (parts_of_task_path seg "/complete" Hs
              (or_intror (ex_intro _ "complete" eq_refl))) as [m2 E2].
  destruct (parts_of_task_path seg ("/" ++ rest) Hs
              (or_intror (ex_intro _ rest eq_refl))) as [m3 E3].
  rewrite append_empty_r in E1.
  rewrite E1, E2, E3. repeat split; try reflexivity.
  - apply startswith_app.
  - rewrite <- append_assoc. apply endswith_app.
Qed.

(** ** The file behind the store *)

Lemma writable_save_tasks (self : TaskManager) :
  writable (fst (save_tasks self)) = writable self.
Proof. destruct self as [l f w]. destruct w; reflexivity. Qed.

Lemma file_save_tasks (self : TaskManager) :
  file (fst (save_tasks self))
  = if writable self then Written (tasks_json (tasks self)) else file self.
Proof. destruct self as [l f w]. destruct w; reflexivity. Qed.

(** What an operation does to the store: nothing, or a new list and a
    save. *)
Lemma step_shape (self : TaskManager) (o : op) :
  step self o = self
  \/ step self o = fst (save_tasks (with_tasks self (tasks (step self o)))).
Proof.
  assert (G : forall (A : Type) l (a : A),
             fst (returning (save_tasks (with_tasks self l)) a)
             = fst (save_tasks
                      (with_tasks self
                         (tasks (fst (returning
                                        (save_tasks (with_tasks self l)) a)))))).
  { intros A l a. rewrite tasks_returning. reflexivity. }
  destruct o as [t p | x | x]; cbn [step].
  - right. unfold create_task. apply G.
  - unfold mark_as_done. destruct (get_task_by_id self x).
    + right. apply G.
    + left. reflexivity.
  - destruct (get_task_by_id self x) as [r|] eqn:E.
    + destruct (delete_task_found _ _ _ E) as (a & b & _ & _ & _ & -> & _).
      right. apply G.
    + unfold delete_task. rewrite E. left. reflexivity.
Qed.

Lemma writable_step (self : TaskManager) (o : op) :
  writable (step self o) = writable self.
Proof.
  destruct (step_shape self o) as [-> | ->]; [reflexivity |].
  rewrite writable_save_tasks. reflexivity.
Qed.

Lemma step_mirrored (self : TaskManager) (o : op) :
  writable self = true -> mirrored self -> mirrored (step self o).
Proof.
  intros Hw Hc. destruct (step_shape self o) as [E | E].
  - rewrite E. exact Hc.
  - unfold mirrored. rewrite E at 1. rewrite file_save_tasks.
    cbn [writable with_tasks tasks]. rewrite Hw. reflexivity.
Qed.

(** X2. Write-through.  On a store whose file can be opened for writing
    and holds what [json.dump] left for the list held, every sequence of
    create, mark-done and delete operations leaves such a file again:
    every method that changes the list calls [save_tasks] on the new
    list.  A restart binds what [json.loads] makes of that file: the
    list, when the text is read back as the list; the empty list, when
    the text broke off and does not decode. *)
Theorem file_mirrors_list (ops : list op) (self : TaskManager) :
  writable self = true -> mirrored self ->
  mirrored (run ops self)
  /\ writable (run ops self) = true
  /\ (reload (tasks_json (tasks (run ops self)))
      = Loaded (tasks_json (tasks (run ops self))) ->
      load_tasks (file (run ops self))
      = Returns (tasks_json (tasks (run ops self))))
  /\ (reload (tasks_json (tasks (run ops self))) = DecodeError ->
      load_tasks (file (run ops self)) = Returns (PList [])).
Proof.
  intros Hw Hc.
  assert (H : mirrored (run ops self) /\ writable (run ops self) = true).
  { revert self Hw Hc. unfold run.
    induction ops as [|o ops IH]; intros self Hw Hc; simpl.
    - split; assumption.
    - apply IH.
      + rewrite writable_step. exact Hw.
      + apply step_mirrored; assumption. }
  destruct H as [Hm Hw']. split; [exact Hm |]. split; [exact Hw' |].
  unfold mirrored in Hm. rewrite Hm. unfold load_tasks.
  split; intros ->; reflexivity.
Qed.

Lemma get_next_id_tasks (a b : TaskManager) :
  tasks a = tasks b -> get_next_id a = get_next_id b.
Proof. unfold get_next_id. intros ->. reflexivity. Qed.

Lemma step_memory (self : TaskManager) (o : op) :
  tasks (step self o) = memory_step (tasks self) o.
Proof.
  unfold memory_step.
  set (m := {| tasks := tasks self; file := Missing; writable := false |}).
  assert (Hm : tasks self = tasks m) by reflexivity.
  destruct o as [t p | x | x]; cbn [step].
  - rewrite !create_task_tasks. unfold new_task.
    rewrite (get_next_id_tasks self m Hm). reflexivity.
  - rewrite !mark_as_done_tasks. unfold get_task_by_id. rewrite <- Hm.
    reflexivity.
  - unfold delete_task, get_task_by_id. rewrite <- Hm.
    destruct (find_by_id x 0 (tasks self)) as [r|]; [| reflexivity].
    destruct (list_remove r 0 (tasks self)); [| reflexivity].
    rewrite !tasks_returning. reflexivity.
Qed.

Lemma file_step_unwritable (self : TaskManager) (o : op) :
  writable self = false -> file (step self o) = file self.
Proof.
  intro Hw. destruct (step_shape self o) as [-> | ->]; [reflexivity |].
  rewrite file_save_tasks. cbn [writable with_tasks file]. rewrite Hw.
  reflexivity.
Qed.

(** X3. Fail-open persistence.  The list a sequence of operations
    produces depends on the list it started from and on nothing else:
    not on the file and not on whether the file can be written.  When it
    cannot be written the file is left exactly as it was. *)
Theorem memory_ignores_file (ops : list op) (a b : TaskManager) :
  tasks a = tasks b ->
  tasks (run ops a) = tasks (run ops b)
  /\ (writable a = false -> file (run ops a) = file a).
Proof.
  revert a b. unfold run.
  induction ops as [|o ops IH]; intros a b H; simpl.
  - split; [exact H | reflexivity].
  - assert (Hs : tasks (step a o) = tasks (step b o))
      by (rewrite !step_memory, H; reflexivity).
    destruct (IH _ _ Hs) as [Ht Hf]. split; [exact Ht |].
    intro Hw. rewrite Hf by (rewrite writable_step; exact Hw).
    apply file_step_unwritable. exact Hw.
Qed.

(** ** What completion and deletion change *)

(** X4. Completion touches one task: when some stored task has the id,
    [mark_as_done] sets [isDone] on the first task of the list with that
    id and leaves every other task, and the order, as they were. *)
Theorem mark_as_done_effect (self : TaskManager) (x : Z) :
  In x (map id (tasks self)) ->
  exists a t b,
    tasks self = a ++ t :: b
    /\ id t = x
    /\ Forall (fun e => id e <> x) a
    /\ tasks (fst (mark_as_done self x)) = a ++ completed t :: b.
Proof.
  intro H. destruct (get_task_by_id_in self x H) as [r Hr].
  destruct (find_by_id_some _ _ _ _ Hr) as (a & b & E & Hp & Hid & Ha).
  exists a, (obj r), b. repeat split; try assumption.
  rewrite mark_as_done_tasks, Hr.
  simpl in Hp. rewrite Hp, E. apply set_done_at.
Qed.

(** X5. Deletion removes one task and is final while ids are distinct:
    when some stored task has the id, [delete_task] takes the first task
    with that id out of the list, the others keeping their order, and
    saves the list; it returns [True] when [save_tasks] returns, and
    when the file can be opened and the encoder raises on the list that
    is left, the exception leaves [delete_task] with the task removed
    all the same.  With pairwise distinct ids no task with the id is
    left, and deleting or completing the id again returns [False] and
    changes nothing. *)
Theorem delete_task_effect (self : TaskManager) (x : Z) :
  In x (map id (tasks self)) ->
  exists a t b,
    tasks self = a ++ t :: b
    /\ id t = x
    /\ Forall (fun e => id e <> x) a
    /\ delete_task self x
       = returning (save_tasks (with_tasks self (a ++ b))) true
    /\ tasks (fst (delete_task self x)) = a ++ b
    /\ (savable self (a ++ b) -> snd (delete_task self x) = Returns true)
    /\ (forall exn, writable self = true ->
          dump_raises (tasks_json (a ++ b)) = Some exn ->
          snd (delete_task self x) = Raises exn)
    /\ (unique_ids self ->
        let self' := fst (delete_task self x) in
        ~ In x (map id (tasks self'))
        /\ delete_task self' x = (self', Returns false)
        /\ mark_as_done self' x = (self', Returns false)).
Proof.
  intro H. destruct (get_task_by_id_in self x H) as [r Hr].
  destruct (delete_task_found _ _ _ Hr) as (a & b & E & Ha & Hid & Hd & Ht & _).
  exists a, (obj r), b.
  split; [exact E |]. split; [exact Hid |]. split; [exact Ha |].
  split; [exact Hd |]. split; [exact Ht |].
  split; [| split].
  - intro Hs. rewrite Hd. apply saved_returns. exact Hs.
  - intros exn Hw He. rewrite Hd. apply saved_raises; assumption.
  - intros Hu self'.
    assert (Hn : ~ In x (map id (a ++ b))).
    { unfold unique_ids in Hu. rewrite E, map_app in Hu. simpl in Hu.
      apply NoDup_remove_2 in Hu. rewrite map_app, <- Hid. exact Hu. }
    fold self' in Ht. rewrite <- Ht in Hn.
    split; [exact Hn |].
    split; [apply delete_task_unknown | apply mark_as_done_unknown]; exact Hn.
Qed.

(** ** Ids in a store that grew from nothing *)

Lemma sorted_app_last (l : list Z) (n : Z) :
  StronglySorted Z.lt l -> Forall (fun x => x < n) l ->
  StronglySorted Z.lt (l ++ [n]).
Proof.
  induction 1 as [|x l Hs IH Hx]; intro Hn; simpl.
  - repeat constructor.
  - inversion Hn as [|? ? Hxn Hl]; subst.
    constructor; [exact (IH Hl) |].
    apply Forall_app. split; [exact Hx | repeat constructor; exact Hxn].
Qed.

Lemma sorted_remove (a b : list Z) (x : Z) :
  StronglySorted Z.lt (a ++ x :: b) -> StronglySorted Z.lt (a ++ b).
Proof.
  induction a as [|y a IH]; simpl; intro H.
  - inversion H; assumption.
  - inversion H as [|? ? Hs Hy]; subst.
    constructor; [exact (IH Hs) |].
    apply Forall_app in Hy. destruct Hy as [Ha Hb].
    apply Forall_app. split; [exact Ha |].
    inversion Hb; assumption.
Qed.

Lemma get_next_id_tasks_ids (self : TaskManager) :
  Forall (fun x => x < get_next_id self) (map id (tasks self)).
Proof. rewrite Forall_map. apply get_next_id_above. Qed.

Lemma get_next_id_positive (self : TaskManager) :
  Forall (fun x => 0 < x) (map id (tasks self)) -> 0 < get_next_id self.
Proof.
  intro H. pose proof (get_next_id_tasks_ids self) as Hb.
  unfold get_next_id in *. destruct (tasks self) as [|t r]; [lia |].
  simpl in H, Hb. inversion H; subst. inversion Hb; subst. lia.
Qed.

Lemma step_ascending (self : TaskManager) (o : op) :
  ascending self -> ascending (step self o).
Proof.
  unfold ascending. intro H. destruct o as [t p | x | x]; cbn [step].
  - rewrite create_task_tasks, map_app. cbn [map new_task id].
    apply sorted_app_last; [exact H | apply get_next_id_tasks_ids].
  - rewrite mark_as_done_ids. exact H.
  - destruct (get_task_by_id self x) as [r|] eqn:E.
    + destruct (delete_task_found _ _ _ E) as (a & b & Et & _ & _ & _ & -> & _).
      rewrite Et, map_app in H. simpl in H. rewrite map_app.
      eapply sorted_remove. exact H.
    + unfold delete_task. rewrite E. exact H.
Qed.

Lemma step_positive (self : TaskManager) (o : op) :
  Forall (fun x => 0 < x) (map id (tasks self)) ->
  Forall (fun x => 0 < x) (map id (tasks (step self o))).
Proof.
  intro H. destruct o as [t p | x | x]; cbn [step].
  - rewrite create_task_tasks, map_app. cbn [map new_task id].
    apply Forall_app. split; [exact H |].
    repeat constructor. apply get_next_id_positive. exact H.
  - rewrite mark_as_done_ids. exact H.
  - destruct (get_task_by_id self x) as [r|] eqn:E.
    + destruct (delete_task_found _ _ _ E) as (a & b & Et & _ & _ & _ & -> & _).
      rewrite Et, map_app in H. simpl in H. apply Forall_app in H.
      destruct H as [Ha Hb]. rewrite map_app. apply Forall_app.
      split; [exact Ha | inversion Hb; assumption].
    + unfold delete_task. rewrite E. exact H.
Qed.

(** In a list in ascending id order the next id is the last id plus one. *)
Lemma get_next_id_last (self : TaskManager) (l : list task) (t : task) :
  ascending self -> tasks self = l ++ [t] -> get_next_id self = id t + 1.
Proof.
  unfold ascending, get_next_id. intros Hs E. rewrite E in *.
  destruct (l ++ [t]) as [|u r] eqn:El;
    [destruct l; discriminate El |].
  rewrite max_from_maximum.
  pose proof (maximum_In (id u) (map id r)) as Hin.
  destruct (maximum_upper (id u) (map id r)) as [Hu Hr].
  assert (Hall : Forall (fun y => y <= maximum (id u) (map id r))
                        (map id (u :: r)))
    by (constructor; assumption).
  change (id u :: map id r) with (map id (u :: r)) in Hin.
  rewrite <- El in Hall, Hin, Hs. rewrite map_app in Hall, Hin, Hs.
  simpl in Hall, Hin, Hs.
  apply Forall_app in Hall. destruct Hall as [_ Ht].
  inversion Ht as [|? ? Hle _]; subst.
  apply in_app_or in Hin. destruct Hin as [Hin | [Hin | []]]; [| lia].
  exfalso. clear - Hs Hin Hle.
  induction (map id l) as [|y ys IH]; [destruct Hin |].
  simpl in Hs. inversion Hs as [|? ? Hs' Hy]; subst.
  destruct Hin as [-> | Hin]; [| exact (IH Hs' Hin)].
  apply Forall_app in Hy. destruct Hy as [_ Hy].
  inversion Hy; subst. lia.
Qed.

(** X6. Ascending, positive ids.  A store whose list is in strictly
    ascending id order with positive ids, the empty store among them,
    stays so under every sequence of create, mark-done and delete
    operations; in such a store the next id is the id of the last task
    plus one. *)
Theorem ascending_positive_ids (ops : list op) (self : TaskManager) :
  ascending self -> Forall (fun x => 0 < x) (map id (tasks self)) ->
  ascending (run ops self)
  /\ Forall (fun x => 0 < x) (map id (tasks (run ops self)))
  /\ (forall l t, tasks (run ops self) = l ++ [t] ->
        get_next_id (run ops self) = id t + 1).
Proof.
  revert self. unfold run.
  induction ops as [|o ops IH]; intros self Ha Hp; simpl.
  - split; [exact Ha |]. split; [exact Hp |].
    intros l t E. exact (get_next_id_last self l t Ha E).
  - apply IH; [apply step_ascending | apply step_positive]; assumption.
Qed.

Lemma max_from_app (a b : list Z) :
  forall cur, max_from cur (a ++ b) = max_from (max_from cur a) b.
Proof.
  induction a as [|x a IH]; intro cur; simpl; [reflexivity | apply IH].
Qed.

(** A create moves the next id up by one. *)
Lemma get_next_id_create (self : TaskManager) (t p : value) :
  get_next_id (fst (create_task self t p)) = get_next_id self + 1.
Proof.
  unfold get_next_id at 1. rewrite create_task_tasks.
  unfold new_task, get_next_id.
  destruct (tasks self) as [|u r]; simpl; [reflexivity |].
  rewrite map_app, max_from_app. simpl. rewrite step_max. lia.
Qed.

(** X7. Consecutive ids.  Creates that follow one another are given
    consecutive ids, starting at the next id of the store they begin on:
    1, 2, 3 and so on for the empty store. *)
Theorem creates_count_up (cs : list (value * value)) (self : TaskManager) :
  ids_assigned (creates cs) self
  = map (fun i => get_next_id self + Z.of_nat i) (seq 0 (List.length cs))
  /\ (tasks self = [] ->
      map id (tasks (run (creates cs) self))
      = map Z.of_nat (seq 1 (List.length cs))).
Proof.
  assert (Hshift : forall n k,
             map (fun i => n + 1 + Z.of_nat i) (seq 0 k)
             = map (fun i => n + Z.of_nat i) (seq 1 k)).
  { intros n k. rewrite <- seq_shift, map_map.
    apply map_ext. intro i. lia. }
  split.
  - revert self. induction cs as [|c cs IH]; intro self; [reflexivity |].
    change (ids_assigned (creates (c :: cs)) self)
      with (get_next_id self
            :: ids_assigned (creates cs)
                            (fst (create_task self (fst c) (snd c)))).
    rewrite IH, get_next_id_create, Hshift.
    cbn [List.length seq map]. f_equal. lia.
  - assert (G : forall self,
               map id (tasks (run (creates cs) self))
               = map id (tasks self)
                 ++ map (fun i => get_next_id self + Z.of_nat i)
                        (seq 0 (List.length cs))).
    { induction cs as [|c cs IH]; intro s.
      - cbn. rewrite app_nil_r. reflexivity.
      - change (run (creates (c :: cs)) s)
          with (run (creates cs) (fst (create_task s (fst c) (snd c)))).
        rewrite IH, create_task_tasks, map_app, get_next_id_create, Hshift.
        cbn [map new_task id List.length seq].
        rewrite <- app_assoc. cbn [app]. f_equal. f_equal. lia. }
    intro E. rewrite G, E. cbn [map app]. unfold get_next_id. rewrite E.
    rewrite <- seq_shift, map_map. apply map_ext. intro i. lia.
Qed.

(** ** Lookup *)

Lemma find_by_id_app (x : Z) (a b : list task) :
  forall i,
    find_by_id x i (a ++ b)
    = match find_by_id x i a with
      | Some r => Some r
      | None => find_by_id x (i + List.length a) b
      end.
Proof.
  induction a as [|e a IH]; intro i; simpl.
  - f_equal. lia.
  - destruct (id e =? x); [reflexivity |].
    rewrite IH. destruct (find_by_id x (S i) a); [reflexivity |].
    f_equal. lia.
Qed.

(** X8. Create, then look up.  After [create_task] the lookup of the new
    id returns the created task, and the lookup of any other id returns
    what it returned before the create. *)
Theorem lookup_after_create (self : TaskManager) (t p : value) :
  let self' := fst (create_task self t p) in
  let new := new_task self t p in
  option_map obj (get_task_by_id self' (id new)) = Some new
  /\ (forall x, x <> id new ->
        get_task_by_id self' x = get_task_by_id self x).
Proof.
  intros self' new.
  assert (Ht : tasks self' = tasks self ++ [new]) by apply create_task_tasks.
  unfold get_task_by_id. rewrite Ht. split.
  - rewrite find_by_id_app.
    assert (N : find_by_id (id new) 0 (tasks self) = None).
    { apply find_by_id_none. intro Hin. apply in_map_iff in Hin.
      destruct Hin as (u & E & Hu).
      pose proof (get_next_id_above self) as Hall.
      rewrite Forall_forall in Hall. specialize (Hall _ Hu).
      change (id new) with (get_next_id self) in E. lia. }
    rewrite N. cbn [find_by_id]. rewrite Z.eqb_refl. reflexivity.
  - intros x Hx. rewrite find_by_id_app.
    destruct (find_by_id x 0 (tasks self)); [reflexivity |].
    cbn [find_by_id]. apply Z.eqb_neq in Hx.
    rewrite Z.eqb_sym, Hx. reflexivity.
Qed.

(** ** Completions in either order *)

Lemma find_by_id_set_done (x : Z) (l : list task) :
  forall n i,
    option_map pos (find_by_id x i (set_done n l))
    = option_map pos (find_by_id x i l).
Proof.
  induction l as [|e l IH]; intros [|n] i; simpl; try reflexivity.
  - destruct (id e =? x); reflexivity.
  - destruct (id e =? x); [reflexivity | apply IH].
Qed.

Lemma set_done_comm (l : list task) :
  forall m n, set_done m (set_done n l) = set_done n (set_done m l).
Proof.
  induction l as [|e l IH]; intros [|m] [|n]; simpl; try reflexivity.
  rewrite IH. reflexivity.
Qed.

(** [mark_as_done] by the position the lookup finds. *)
Lemma mark_as_done_by_pos (self : TaskManager) (x : Z) :
  mark_as_done self x
  = match option_map pos (find_by_id x 0 (tasks self)) with
    | Some n =>
        returning (save_tasks (with_tasks self (set_done n (tasks self)))) true
    | None => (self, Returns false)
    end.
Proof.
  unfold mark_as_done, get_task_by_id.
  destruct (find_by_id x 0 (tasks self)); reflexivity.
Qed.

(** X9. Completions commute: completing X and then Y leaves the same
    store, list and file, as completing Y and then X. *)
Theorem mark_as_done_commute (self : TaskManager) (x y : Z) :
  run [MarkDone x; MarkDone y] self = run [MarkDone y; MarkDone x] self.
Proof.
  unfold run. cbn [fold_left step].
  rewrite (mark_as_done_by_pos self x), (mark_as_done_by_pos self y).
  destruct (option_map pos (find_by_id x 0 (tasks self))) as [m|] eqn:Ex;
    destruct (option_map pos (find_by_id y 0 (tasks self))) as [n|] eqn:Ey;
    cbn [fst returning]; rewrite !mark_as_done_by_pos, ?tasks_save_tasks;
    cbn [tasks with_tasks]; rewrite ?find_by_id_set_done, ?Ex, ?Ey;
    cbn [fst returning]; try reflexivity.
  rewrite !save_tasks_over, set_done_comm. reflexivity.
Qed.

(** ** How a request can end *)

Lemma mark_as_done_false (self : TaskManager) (x : Z) :
  snd (mark_as_done self x) = Returns false -> fst (mark_as_done self x) = self.
Proof.
  unfold mark_as_done. destruct (get_task_by_id self x); [| reflexivity].
  unfold returning. cbn [fst snd].
  destruct (snd (save_tasks _)); discriminate.
Qed.

Lemma delete_task_false (self : TaskManager) (x : Z) :
  snd (delete_task self x) = Returns false -> fst (delete_task self x) = self.
Proof.
  unfold delete_task. destruct (get_task_by_id self x) as [r|];
    [| reflexivity].
  destruct (list_remove r 0 (tasks self)); [| reflexivity].
  unfold returning. cbn [fst snd].
  destruct (snd (save_tasks _)); discriminate.
Qed.

Lemma handled_post_tasks (py_int : string -> option Z)
    (self : TaskManager) (req : request) :
  handled self (fst (_handle_post_tasks py_int self req))
          (snd (_handle_post_tasks py_int self req)).
Proof.
  unfold _handle_post_tasks.
  destruct (_parse_json_body py_int req) as [data | e];
    [| apply handled_crash].
  destruct (is_none data); [error_reply |].
  destruct (Py.get data "title" PNone) as [t | e]; [| apply handled_crash].
  destruct (Py.get data "priority" (PStr "normal")) as [p | e];
    [| apply handled_crash].
  destruct (truthy t) eqn:Ht; cbn [negb]; [| error_reply].
  destruct (in_strs p ["low"; "normal"; "high"]) eqn:Hp; cbn [negb];
    [| error_reply].
  pose proof (handled_create self t p Ht Hp) as H.
  destruct (create_task self t p) as [self' [task | e]]; exact H.
Qed.

Lemma handled_complete_task (py_int : string -> option Z)
    (self : TaskManager) (req : request) :
  handled self (fst (_handle_post_tasks_complete py_int self req))
          (snd (_handle_post_tasks_complete py_int self req)).
Proof.
  unfold _handle_post_tasks_complete.
  destruct (_extract_task_id_from_path py_int (path req)) as [x|];
    [| error_reply].
  pose proof (handled_complete self x) as H.
  pose proof (mark_as_done_false self x) as F.
  destruct (mark_as_done self x) as [self' [[|] | e]]; cbn [fst snd] in *.
  - apply H. discriminate.
  - rewrite (F eq_refl). error_reply.
  - apply H. discriminate.
Qed.

Lemma handled_delete_task (py_int : string -> option Z)
    (self : TaskManager) (req : request) :
  handled self (fst (_handle_delete_task py_int self req))
          (snd (_handle_delete_task py_int self req)).
Proof.
  unfold _handle_delete_task.
  destruct (_extract_task_id_from_path py_int (path req)) as [x|];
    [| error_reply].
  pose proof (handled_delete self x) as H.
  pose proof (delete_task_false self x) as F.
  destruct (delete_task self x) as [self' [[|] | e]]; cbn [fst snd] in *.
  - apply H. discriminate.
  - rewrite (F eq_refl). error_reply.
  - apply H. discriminate.
Qed.

(** Every request ends in one of the ways of [handled]. *)
Lemma dispatch_handled (py_int : string -> option Z)
    (self : TaskManager) (req : request) :
  handled self (fst (dispatch py_int self req)) (snd (dispatch py_int self req)).
Proof.
  unfold dispatch, do_GET, do_POST, do_DELETE, _handle_get_tasks.
  destruct (command req =? "GET")%string.
  { destruct (path req =? "/tasks")%string; [apply handled_list | error_reply]. }
  destruct (command req =? "POST")%string.
  { destruct (path req =? "/tasks")%string; [apply handled_post_tasks |].
    destruct (startswith (path req) "/tasks/" && endswith (path req) "/complete");
      [apply handled_complete_task | error_reply]. }
  destruct (command req =? "DELETE")%string.
  { destruct (startswith (path req) "/tasks/");
      [apply handled_delete_task | error_reply]. }
  apply handled_unsupported.
Qed.

Lemma serve_cons (py_int : string -> option Z)
    (self : TaskManager) (req : request) (reqs : list request) :
  serve py_int self (req :: reqs)
  = (fst (serve py_int (fst (dispatch py_int self req)) reqs),
     snd (dispatch py_int self req)
     :: snd (serve py_int (fst (dispatch py_int self req)) reqs)).
Proof.
  cbn [serve]. destruct (dispatch py_int self req) as [self' out].
  cbn [fst snd]. destruct (serve py_int self' reqs). reflexivity.
Qed.

(** What [create_task] returns is the task it built. *)
Lemma create_task_returns (self : TaskManager) (t p : value) (k : task) :
  snd (create_task self t p) = Returns k -> k = new_task self t p.
Proof.
  unfold create_task, returning. cbn [snd].
  destruct (snd (save_tasks _)); [| discriminate].
  intros [= <-]. reflexivity.
Qed.

(** The replies behind a response that was sent. *)
Lemma handled_sent (self self' : TaskManager) (out : outcome) :
  handled self self' out ->
  forall r, out = Sent r ->
    (exists code message,
       In (code, message) error_replies /\ r = _send_error code message)
    \/ r = _send_json (tasks_json (tasks self)) OK
    \/ (exists t p, r = _send_json (task_json (new_task self t p)) CREATED)
    \/ r = _send_json (PDict []) OK.
Proof.
  intro H. destruct H as [ | | code message Hin | | t p Ht Hp | x Hx | x Hx ];
    intros r E.
  - discriminate E.
  - discriminate E.
  - injection E as <-. left. exists code, message. split; [exact Hin | reflexivity].
  - injection E as <-. right. left. reflexivity.
  - right. right. left. exists t, p.
    destruct (snd (create_task self t p)) as [k|e] eqn:Ek; [| discriminate E].
    injection E as <-. rewrite (create_task_returns _ _ _ _ Ek). reflexivity.
  - right. right. right.
    destruct (snd (mark_as_done self x)); [| discriminate E].
    injection E as <-. reflexivity.
  - right. right. right.
    destruct (snd (delete_task self x)); [| discriminate E].
    injection E as <-. reflexivity.
Qed.

Lemma send_json_envelope (data : value) (code : Z) :
  is_none data = false ->
  content_type (_send_json data code) = "application/json"
  /\ status (_send_json data code) = code
  /\ (body (_send_json data code) = None
      <-> raised (_send_json data code) <> None)
  /\ (complete (_send_json data code)
      -> body (_send_json data code) = Some data)
  /\ raised (_send_json data code) = dumps_raises data.
Proof.
  intro Hn. unfold complete, _send_json. cbn. rewrite Hn.
  destruct (dumps_raises data) as [e|];
    repeat split; try discriminate; intros; congruence.
Qed.

(** A response that broke off is the list of [GET /tasks] or the task
    of a 201. *)
Lemma broken_reply (py_int : string -> option Z)
    (self : TaskManager) (req : request) (r : response) (exn : string) :
  snd (dispatch py_int self req) = Sent r -> raised r = Some exn ->
  (r = _send_json (tasks_json (tasks self)) OK
   /\ dumps_raises (tasks_json (tasks self)) = Some exn)
  \/ exists t p,
       r = _send_json (task_json (new_task self t p)) CREATED
       /\ dumps_raises (task_json (new_task self t p)) = Some exn.
Proof.
  intros E Hx.
  destruct (handled_sent _ _ _ (dispatch_handled py_int self req) r E)
    as [(code & message & Hin & ->) | [-> | [(t & p & ->) | ->]]].
  - rewrite (send_error_whole _ _ Hin) in Hx. discriminate Hx.
  - left. split; [reflexivity |].
    destruct (send_json_envelope (tasks_json (tasks self)) OK eq_refl)
      as (_ & _ & _ & _ & Hr).
    rewrite <- Hr. exact Hx.
  - right. exists t, p. split; [reflexivity |].
    destruct (send_json_envelope (task_json (new_task self t p)) CREATED
                eq_refl) as (_ & _ & _ & _ & Hr).
    rewrite <- Hr. exact Hx.
  - rewrite (send_json_whole (PDict []) OK eq_refl dumps_empty) in Hx.
    discriminate Hx.
Qed.

(** X10. The envelope of a response.  Whatever the request, a response
    the handler starts has the content type [application/json] and one
    of the statuses 200, 201, 400 and 404.  It carries a body unless the
    encoding of the data raised, which happens after status and headers
    have gone out, and only to the list of [GET /tasks] and to the task
    of a 201.  With 400 or 404 the response goes out whole, and its body
    is an object with the one key [error] and one of the six messages of
    the handler. *)
Theorem response_envelope (py_int : string -> option Z)
    (self : TaskManager) (req : request) (r : response) :
  snd (dispatch py_int self req) = Sent r ->
  content_type r = "application/json"
  /\ In (status r) [OK; CREATED; BAD_REQUEST; NOT_FOUND]
  /\ (body r = None <-> raised r <> None)
  /\ (forall exn, raised r = Some exn ->
        (r = _send_json (tasks_json (tasks self)) OK
         /\ dumps_raises (tasks_json (tasks self)) = Some exn)
        \/ exists t p,
             r = _send_json (task_json (new_task self t p)) CREATED
             /\ dumps_raises (task_json (new_task self t p)) = Some exn)
  /\ (BAD_REQUEST <= status r ->
      complete r
      /\ exists message,
           In (status r, message) error_replies
           /\ body r = Some (PDict [("error", PStr message)])).
Proof.
  intro E. pose proof (broken_reply py_int self req r) as Hbroken.
  specialize (fun exn => Hbroken exn E).
  destruct (handled_sent _ _ _ (dispatch_handled py_int self req) r E)
    as [(code & message & Hin & ->) | [-> | [(t & p & ->) | ->]]].
  - split; [reflexivity |]. split; [| split; [| split; [exact Hbroken |]]].
    + rewrite (send_error_whole _ _ Hin). cbn. cbn in Hin.
      repeat (destruct Hin as [[= <- <-] | Hin]; [cbn; tauto |]).
      destruct Hin.
    + rewrite (send_error_whole _ _ Hin). cbn.
      split; [discriminate | intro H; contradiction].
    + intros _. rewrite (send_error_whole _ _ Hin). cbn.
      split; [reflexivity |].
      exists message. split; [exact Hin | reflexivity].
  - destruct (send_json_envelope (tasks_json (tasks self)) OK eq_refl)
      as (Hc & Hs & Hb & _ & Hr).
    split; [exact Hc |]. rewrite Hs. split; [cbn; tauto |].
    split; [exact Hb |]. split; [exact Hbroken |].
    intro H. exfalso. unfold BAD_REQUEST, OK in H. lia.
  - destruct (send_json_envelope (task_json (new_task self t p)) CREATED
                eq_refl) as (Hc & Hs & Hb & _ & Hr).
    split; [exact Hc |]. rewrite Hs. split; [cbn; tauto |].
    split; [exact Hb |]. split; [exact Hbroken |].
    intro H. exfalso. unfold BAD_REQUEST, CREATED in H. lia.
  - split; [reflexivity |]. split; [cbn; tauto |].
    split; [| split; [exact Hbroken |]].
    + rewrite (send_json_whole (PDict []) OK eq_refl dumps_empty). cbn.
      split; [discriminate | intro H; contradiction].
    + intro H. exfalso. cbn in H. unfold BAD_REQUEST, OK in H. lia.
Qed.

(** The exception of a store method: [save_tasks] raised it, on the list
    the method left, after the file was opened and written in part. *)
Lemma op_raises (self : TaskManager) (o : op) (exn : string) :
  raised_by self o = Some exn ->
  writable self = true
  /\ dump_raises (tasks_json (tasks (step self o))) = Some exn
  /\ file (step self o) = Written (tasks_json (tasks (step self o))).
Proof.
  assert (G : forall (A : Type) l (a : A),
             exception_of (snd (returning (save_tasks (with_tasks self l)) a))
             = Some exn ->
             writable self = true /\ dump_raises (tasks_json l) = Some exn
             /\ file (fst (returning (save_tasks (with_tasks self l)) a))
                = Written (tasks_json l)).
  { intros A l a. unfold returning, save_tasks.
    cbn [with_tasks writable tasks].
    destruct (writable self); cbn [fst snd file]; [| discriminate].
    destruct (dump_raises (tasks_json l)); [| discriminate].
    intros [= ->]. repeat split. }
  destruct o as [t p | x | x]; cbn [raised_by step].
  - rewrite create_task_tasks. unfold create_task. apply G.
  - rewrite mark_as_done_tasks. unfold mark_as_done.
    destruct (get_task_by_id self x); [apply G | discriminate].
  - destruct (get_task_by_id self x) as [r|] eqn:E.
    + destruct (delete_task_found _ _ _ E) as (a & b & _ & _ & _ & Hd & -> & _).
      rewrite Hd. apply G.
    + unfold delete_task. rewrite E. discriminate.
Qed.

Lemma handled_failure (self self' : TaskManager) (out : outcome) :
  handled self self' out ->
  (forall r, out = Sent r -> BAD_REQUEST <= status r -> self' = self)
  /\ (forall code, out = LibraryError code -> self' = self)
  /\ (forall exn, out = Crashed exn ->
        self' = self
        \/ exists o, self' = step self o /\ raised_by self o = Some exn).
Proof.
  intro H. destruct H as [ | | code message Hin | | t p Ht Hp | x Hx | x Hx ].
  - repeat split; try reflexivity; try discriminate; intros; left; reflexivity.
  - repeat split; try reflexivity; try discriminate; intros; left; reflexivity.
  - repeat split; try reflexivity; try discriminate; intros; left; reflexivity.
  - repeat split; try reflexivity; try discriminate; intros; left; reflexivity.
  - destruct (snd (create_task self t p)) as [k|e] eqn:Ek; cbn [after_call].
    + split; [| split; discriminate].
      intros r [= <-] Hs. cbn in Hs. unfold BAD_REQUEST, CREATED in Hs. lia.
    + split; [discriminate |]. split; [discriminate |].
      intros exn [= <-]. right. exists (Create t p).
      split; [reflexivity |]. cbn [raised_by]. rewrite Ek. reflexivity.
  - destruct (snd (mark_as_done self x)) as [k|e] eqn:Ek; cbn [after_call].
    + split; [| split; discriminate].
      intros r [= <-] Hs. cbn in Hs. unfold BAD_REQUEST, OK in Hs. lia.
    + split; [discriminate |]. split; [discriminate |].
      intros exn [= <-]. right. exists (MarkDone x).
      split; [reflexivity |]. cbn [raised_by]. rewrite Ek. reflexivity.
  - destruct (snd (delete_task self x)) as [k|e] eqn:Ek; cbn [after_call].
    + split; [| split; discriminate].
      intros r [= <-] Hs. cbn in Hs. unfold BAD_REQUEST, OK in Hs. lia.
    + split; [discriminate |]. split; [discriminate |].
      intros exn [= <-]. right. exists (Delete x).
      split; [reflexivity |]. cbn [raised_by]. rewrite Ek. reflexivity.
Qed.

(** X11. A request that is refused changes nothing.  When the response
    has status 400 or 404, when the method is not implemented, and on
    every GET, the store after the request is the store before it, list
    and file.  When an exception leaves the handler before anything was
    sent, the store is the one before as well, unless a store method
    raised it: then [save_tasks] raised with the file open, and the
    store is the one that method left, its list and a file written as
    far as [json.dump] got. *)
Theorem refusal_leaves_store (py_int : string -> option Z)
    (self : TaskManager) (req : request) :
  (forall r, snd (dispatch py_int self req) = Sent r ->
             BAD_REQUEST <= status r ->
             fst (dispatch py_int self req) = self)
  /\ (forall code, snd (dispatch py_int self req) = LibraryError code ->
                   fst (dispatch py_int self req) = self)
  /\ (command req = "GET" -> fst (dispatch py_int self req) = self)
  /\ (forall exn, snd (dispatch py_int self req) = Crashed exn ->
        fst (dispatch py_int self req) = self
        \/ exists o,
             fst (dispatch py_int self req) = step self o
             /\ raised_by self o = Some exn
             /\ writable self = true
             /\ dump_raises (tasks_json (tasks (step self o))) = Some exn
             /\ file (step self o) = Written (tasks_json (tasks (step self o)))).
Proof.
  pose proof (handled_failure _ _ _ (dispatch_handled py_int self req))
    as (H1 & H2 & H3).
  split; [exact H1 |]. split; [exact H2 |]. split.
  - intro Hc. unfold dispatch, do_GET, _handle_get_tasks. rewrite Hc.
    cbn. destruct (path req =? "/tasks")%string; reflexivity.
  - intros exn E. destruct (H3 exn E) as [K | (o & K & Hr)];
      [left; exact K | right].
    exists o. destruct (op_raises _ _ _ Hr) as (Hw & Hd & Hf).
    repeat split; assumption.
Qed.

(** ** Invariants over HTTP traffic *)

Lemma set_done_valid (l : list task) :
  forall n, Forall valid_task l -> Forall valid_task (set_done n l).
Proof.
  induction l as [|e l IH]; intros [|n] H; simpl; try exact H;
    inversion H as [|? ? He Hl]; subst; constructor; auto.
Qed.

Lemma handled_valid (self self' : TaskManager) (out : outcome) :
  handled self self' out ->
  Forall valid_task (tasks self) -> Forall valid_task (tasks self').
Proof.
  intros H Hv. destruct H as [ | | | | t p Ht Hp | x Hx | x Hx ];
    try exact Hv.
  - rewrite create_task_tasks. apply Forall_app. split; [exact Hv |].
    constructor; [| constructor].
    split; [exact Ht | apply in_strs_priorities; exact Hp].
  - rewrite mark_as_done_tasks. destruct (get_task_by_id self x); [| exact Hv].
    apply set_done_valid. exact Hv.
  - destruct (get_task_by_id self x) as [r|] eqn:E.
    + destruct (delete_task_found _ _ _ E) as (a & b & Et & _ & _ & _ & -> & _).
      rewrite Et in Hv. apply Forall_app in Hv. destruct Hv as [Ha Hb].
      apply Forall_app. split; [exact Ha | inversion Hb; assumption].
    + unfold delete_task. rewrite E. exact Hv.
Qed.

(** X12. Only valid tasks enter over HTTP.  If every stored task has a
    title that counts as true and one of the priorities low, normal and
    high, then so does every stored task after any sequence of requests:
    the create handler lets nothing else in, and completion and deletion
    leave titles and priorities alone. *)
Theorem served_tasks_valid (py_int : string -> option Z)
    (reqs : list request) (self : TaskManager) :
  Forall valid_task (tasks self) ->
  Forall valid_task (tasks (fst (serve py_int self reqs))).
Proof.
  revert self. induction reqs as [|req reqs IH]; intros self H.
  - exact H.
  - rewrite serve_cons. cbn [fst]. apply IH.
    exact (handled_valid _ _ _ (dispatch_handled py_int self req) H).
Qed.

Lemma handled_ops (self self' : TaskManager) (out : outcome) :
  handled self self' out -> ops_of self self'.
Proof.
  intro H. destruct H as [ | | | | t p _ _ | x _ | x _ ];
    try (left; reflexivity); right.
  - exists (Create t p). reflexivity.
  - exists (MarkDone x). reflexivity.
  - exists (Delete x). reflexivity.
Qed.

(** X13. The handler adds nothing to the store operations: the store
    after any sequence of requests is the store after a sequence of
    create, mark-done and delete operations, at most one for each
    request; so requests keep the ids pairwise distinct. *)
Theorem serve_is_run (py_int : string -> option Z)
    (reqs : list request) (self : TaskManager) :
  (exists ops,
     (List.length ops <= List.length reqs)%nat
     /\ fst (serve py_int self reqs) = run ops self)
  /\ (unique_ids self -> unique_ids (fst (serve py_int self reqs))).
Proof.
  assert (G : exists ops,
             (List.length ops <= List.length reqs)%nat
             /\ fst (serve py_int self reqs) = run ops self).
  { revert self. induction reqs as [|req reqs IH]; intro self.
    - exists []. split; [apply Nat.le_refl | reflexivity].
    - rewrite serve_cons. cbn [fst].
      destruct (IH (fst (dispatch py_int self req))) as (ops & Hl & ->).
      destruct (handled_ops _ _ _ (dispatch_handled py_int self req))
        as [-> | [o ->]].
      + exists ops. split; [simpl; lia | reflexivity].
      + exists (o :: ops). split; [simpl; lia | reflexivity]. }
  split; [exact G |].
  destruct G as (ops & _ & ->). clear reqs.
  revert self. unfold run.
  induction ops as [|o ops IH]; intros self H; simpl; [exact H |].
  apply IH. apply step_unique. exact H.
Qed.

(** ** Clearing the store *)

Lemma delete_task_head (self : TaskManager) (t : task) (r : list task) :
  tasks self = t :: r ->
  delete_task self (id t) = returning (save_tasks (with_tasks self r)) true.
Proof.
  intro E. unfold delete_task, get_task_by_id. rewrite E.
  cbn [find_by_id]. rewrite Z.eqb_refl. cbn [list_remove pos].
  reflexivity.
Qed.

(** X14. Deleting what was listed empties the store.  When one DELETE
    is sent for each task of the list, in list order and with the id of
    that task in its path, as the client's [clear_all_tasks] does, the
    list is empty afterwards, also when ids repeat and also when saving
    raises.  Each of the requests is answered 200 with the body [{}] or
    ends in the exception of [save_tasks], and all are answered when
    every list left on the way can be saved. *)
Theorem delete_listed_empties (py_int : string -> option Z)
    (reqs : list request) (self : TaskManager) :
  Forall2 (fun req t => delete_request py_int req (id t)) reqs (tasks self) ->
  tasks (fst (serve py_int self reqs)) = []
  /\ Forall (fun out => out = Sent (_send_json (PDict []) OK)
                        \/ exists exn, out = Crashed exn)
            (snd (serve py_int self reqs))
  /\ ((forall k, savable self (skipn (S k) (tasks self))) ->
      Forall (fun out => out = Sent (_send_json (PDict []) OK))
             (snd (serve py_int self reqs))).
Proof.
  remember (tasks self) as l eqn:El. intro H. revert self El.
  induction H as [|req t reqs r Hreq _ IH]; intros self El.
  - split; [symmetry; exact El |]. split; [constructor |]. intros _.
    constructor.
  - rewrite serve_cons. cbn [fst snd].
    rewrite (dispatch_delete _ _ _ _ Hreq).
    rewrite (delete_task_head self t r (eq_sym El)).
    set (s := save_tasks (with_tasks self r)).
    assert (Ht : tasks (fst s) = r)
      by (unfold s; rewrite tasks_save_tasks; reflexivity).
    assert (Hw : writable (fst s) = writable self)
      by (unfold s; rewrite writable_save_tasks; reflexivity).
    destruct (IH (fst s) (eq_sym Ht)) as (H1 & H2 & H3).
    assert (H3' : (forall k, savable self (skipn (S k) (t :: r))) ->
                  Forall (fun out => out = Sent (_send_json (PDict []) OK))
                         (snd (serve py_int (fst s) reqs))).
    { intro Hsav. apply H3. intro k. specialize (Hsav (S k)).
      cbn [skipn] in Hsav. unfold savable in *. rewrite Hw. exact Hsav. }
    unfold returning. destruct (snd s) as [u|e] eqn:Es; cbn [fst snd].
    + split; [exact H1 |]. split.
      * constructor; [left; reflexivity | exact H2].
      * intro Hsav. constructor; [reflexivity | exact (H3' Hsav)].
    + split; [exact H1 |]. split.
      * constructor; [right; exists e; reflexivity | exact H2].
      * intro Hsav. exfalso. specialize (Hsav 0%nat). cbn [skipn] in Hsav.
        apply save_tasks_returns in Hsav. fold s in Hsav.
        rewrite Es in Hsav. discriminate Hsav.
Qed.

(** ** Bodies the create handler cannot use *)

Lemma post_tasks_unread (py_int : string -> option Z)
    (self : TaskManager) (req : request) :
  command req = "POST" -> path req = "/tasks" ->
  dispatch py_int self req
  = match declared_length py_int req with
    | None => (self, Sent (_send_error BAD_REQUEST "Invalid JSON"))
    | Some n =>
        if n =? 0 then (self, Sent (_send_error BAD_REQUEST "Invalid JSON"))
        else match payload req with
             | DecodeError =>
                 (self, Sent (_send_error BAD_REQUEST "Invalid JSON"))
             | LoadsRaises exn => (self, Crashed exn)
             | Loaded v => dispatch py_int self req
             end
    end.
Proof.
  intros Hc Hp. unfold declared_length.
  destruct (match content_length req with
            | Some s => py_int s
            | None => Some 0
            end) as [n|] eqn:E.
  - destruct (n =? 0) eqn:E0.
    + unfold dispatch, do_POST, _handle_post_tasks, _parse_json_body.
      rewrite Hc, Hp, E, E0. reflexivity.
    + destruct (payload req) as [v| |e] eqn:Ep; [reflexivity | |];
        unfold dispatch, do_POST, _handle_post_tasks, _parse_json_body;
        rewrite Hc, Hp, E, E0, Ep; reflexivity.
  - unfold dispatch, do_POST, _handle_post_tasks, _parse_json_body.
    rewrite Hc, Hp, E. reflexivity.
Qed.

(** X15. No usable body, no task.  A POST to [/tasks] whose
    Content-Length header is missing, does not read as an integer or
    reads as 0, or whose body cannot be read or decoded for a
    [ValueError] (a length below -1, bytes that are not UTF-8, text that
    is not JSON), is answered 400 "Invalid JSON", a response that goes
    out whole, and changes nothing.  When the length is not 0 and the
    read or the decoding raises another exception (the [OverflowError]
    of a length that is no [ssize_t]), the exception leaves the handler
    and nothing is sent. *)
Theorem unread_body_is_invalid (py_int : string -> option Z)
    (self : TaskManager) (req : request) :
  command req = "POST" -> path req = "/tasks" ->
  (declared_length py_int req = None \/ declared_length py_int req = Some 0
   \/ payload req = DecodeError ->
   dispatch py_int self req
   = (self, Sent (_send_error BAD_REQUEST "Invalid JSON"))
   /\ complete (_send_error BAD_REQUEST "Invalid JSON"))
  /\ (forall n exn,
        declared_length py_int req = Some n -> n <> 0 ->
        payload req = LoadsRaises exn ->
        dispatch py_int self req = (self, Crashed exn)).
Proof.
  intros Hc Hp. rewrite (post_tasks_unread _ _ _ Hc Hp). split.
  - intro H. split; [| apply dumps_message; reflexivity].
    destruct H as [-> | [-> | H]]; [reflexivity | reflexivity |].
    rewrite H. destruct (declared_length py_int req) as [n|]; [| reflexivity].
    destruct (n =? 0); reflexivity.
  - intros n exn -> Hn ->. apply Z.eqb_neq in Hn. rewrite Hn. reflexivity.
Qed.

(** ** Where an exception can leave the handler *)

(** An exception that leaves the handler before anything is sent comes
    from the body of a create, with the store untouched, or from a store
    method. *)
Lemma crash_causes (py_int : string -> option Z)
    (self : TaskManager) (req : request) (exn : string) :
  snd (dispatch py_int self req) = Crashed exn ->
  (command req = "POST" /\ path req = "/tasks"
   /\ fst (dispatch py_int self req) = self
   /\ exists n,
        declared_length py_int req = Some n /\ n <> 0
        /\ (payload req = LoadsRaises exn
            \/ exists v, payload req = Loaded v /\ is_dict v = false
                         /\ is_none v = false /\ exn = "AttributeError"))
  \/ (exists o,
        fst (dispatch py_int self req) = step self o
        /\ raised_by self o = Some exn).
Proof.
  unfold dispatch, do_GET, do_POST, do_DELETE, _handle_get_tasks.
  destruct (command req =? "GET")%string eqn:G.
  { destruct (path req =? "/tasks")%string; discriminate. }
  destruct (command req =? "POST")%string eqn:P.
  2:{ destruct (command req =? "DELETE")%string; [| discriminate].
      destruct (startswith (path req) "/tasks/"); [| discriminate].
      unfold _handle_delete_task.
      destruct (_extract_task_id_from_path py_int (path req)) as [x|];
        [| discriminate].
      destruct (delete_task self x) as [s' [[|] | e]] eqn:E; try discriminate.
      cbn [fst snd]. intros [= <-]. right. exists (Delete x).
      cbn [step raised_by]. rewrite E. split; reflexivity. }
  apply String.eqb_eq in P.
  destruct (path req =? "/tasks")%string eqn:T.
  2:{ destruct (startswith (path req) "/tasks/" && endswith (path req) "/complete");
        [| discriminate].
      unfold _handle_post_tasks_complete.
      destruct (_extract_task_id_from_path py_int (path req)) as [x|];
        [| discriminate].
      destruct (mark_as_done self x) as [s' [[|] | e]] eqn:E; try discriminate.
      cbn [fst snd]. intros [= <-]. right. exists (MarkDone x).
      cbn [step raised_by]. rewrite E. split; reflexivity. }
  apply String.eqb_eq in T.
  unfold _handle_post_tasks, _parse_json_body, declared_length.
  destruct (match content_length req with
            | Some s => py_int s
            | None => Some 0
            end) as [n|] eqn:E; [| discriminate].
  destruct (n =? 0) eqn:E0; [discriminate |].
  apply Z.eqb_neq in E0.
  destruct (payload req) as [v | | e]; [| discriminate |].
  - destruct v as [ | b | i | f | s | l | d];
      try (cbn; intros [= <-]; left; repeat split; try assumption;
           exists n; repeat split; try assumption;
           right; eexists; repeat split; reflexivity).
    cbn [is_none Py.get].
    destruct (lookup "title" d) as [t|];
      destruct (lookup "priority" d) as [p|];
      repeat match goal with
             | |- context [if negb ?c then _ else _] =>
                 destruct c; cbn [negb]
             end; try discriminate;
      match goal with
      | |- context [create_task ?s ?t ?p] =>
          destruct (create_task s t p) as [s' [k|e]] eqn:Ec;
          cbn [fst snd]; [discriminate |];
          intros [= <-]; right; exists (Create t p);
          cbn [step raised_by]; rewrite Ec; split; reflexivity
      end.
  - cbn. intros [= <-]. left. repeat split; try assumption.
    exists n. repeat split; try assumption. left. reflexivity.
Qed.

(** X16. Where an exception can leave the handler.  If the handling of
    a request ends in an exception, then one of four things happened.
    The request is a POST to [/tasks] with a length that is not 0, and
    reading or decoding the body raised an exception that is no
    [ValueError], or the body is JSON for a value that is neither an
    object nor [null] and the exception is [AttributeError]: nothing was
    sent and the store is as it was.  Or [save_tasks] raised in a store
    method: the file can be opened, the encoder raises on the list the
    method left, the store is the one it left and nothing was sent.  Or the
    encoding of the list of [GET /tasks] raised after status 200 and the
    headers.  Or the encoding of the created task raised after status
    201 and the headers. *)
Theorem exception_causes (py_int : string -> option Z)
    (self : TaskManager) (req : request) (exn : string) :
  escaped (snd (dispatch py_int self req)) = Some exn ->
  (command req = "POST" /\ path req = "/tasks"
   /\ dispatch py_int self req = (self, Crashed exn)
   /\ exists n,
        declared_length py_int req = Some n /\ n <> 0
        /\ (payload req = LoadsRaises exn
            \/ exists v, payload req = Loaded v /\ is_dict v = false
                         /\ is_none v = false /\ exn = "AttributeError"))
  \/ (exists o,
        dispatch py_int self req = (step self o, Crashed exn)
        /\ writable self = true
        /\ dump_raises (tasks_json (tasks (step self o))) = Some exn)
  \/ (snd (dispatch py_int self req)
      = Sent (_send_json (tasks_json (tasks self)) OK)
      /\ dumps_raises (tasks_json (tasks self)) = Some exn)
  \/ (exists t p,
        snd (dispatch py_int self req)
        = Sent (_send_json (task_json (new_task self t p)) CREATED)
        /\ dumps_raises (task_json (new_task self t p)) = Some exn).
Proof.
  destruct (snd (dispatch py_int self req)) as [r | e | code] eqn:E;
    cbn [escaped]; [| | discriminate].
  - intro Hr. right. right.
    destruct (broken_reply py_int self req r exn E Hr)
      as [[-> Hd] | (t & p & -> & Hd)].
    + left. split; [reflexivity | exact Hd].
    + right. exists t, p. split; [reflexivity | exact Hd].
  - intros [= ->].
    destruct (crash_causes py_int self req exn E)
      as [(Hc & Hp & Hs & Hn) | (o & Hs & Ho)].
    + left. split; [exact Hc |]. split; [exact Hp |].
      split; [| exact Hn].
      rewrite (surjective_pairing (dispatch py_int self req)), Hs, E.
      reflexivity.
    + right. left. exists o. destruct (op_raises _ _ _ Ho) as (Hw & Hd & _).
      split; [| split; assumption].
      rewrite (surjective_pairing (dispatch py_int self req)), Hs, E.
      reflexivity.
Qed.

(** ** What can happen to a stored task *)

Lemma set_done_in (t : task) (l : list task) :
  forall n, In t l -> In t (set_done n l) \/ In (completed t) (set_done n l).
Proof.
  induction l as [|e l IH]; intros n H; [destruct H |].
  destruct n as [|n]; simpl.
  - destruct H as [-> | H]; [right; left; reflexivity | left; right; exact H].
  - destruct H as [-> | H]; [left; left; reflexivity |].
    destruct (IH n H) as [G | G]; [left | right]; right; exact G.
Qed.

Lemma step_keeps_task (self : TaskManager) (o : op) (t : task) :
  In t (tasks self) ->
  In t (tasks (step self o)) \/ In (completed t) (tasks (step self o))
  \/ o = Delete (id t).
Proof.
  intro H. destruct o as [ti p | x | x]; cbn [step].
  - left. rewrite create_task_tasks. apply in_or_app. left. exact H.
  - rewrite mark_as_done_tasks. destruct (get_task_by_id self x) as [r|].
    + destruct (set_done_in t (tasks self) (pos r) H) as [G | G]; auto.
    + left. exact H.
  - destruct (get_task_by_id self x) as [r|] eqn:E.
    + destruct (delete_task_found _ _ _ E)
        as (a & b & Et & _ & Hid & _ & -> & _).
      rewrite Et in H. apply in_app_or in H.
      destruct H as [H | [H | H]].
      * left. apply in_or_app. left. exact H.
      * right. right. subst t. rewrite Hid. reflexivity.
      * left. apply in_or_app. right. exact H.
    + unfold delete_task. rewrite E. left. exact H.
Qed.

(** X17. A stored task only ever gets completed or deleted.  After any
    sequence of operations a task of the store is still in the list as it
    was, or is in the list with the same id, title and priority and
    [isDone] true, or a delete of its id was among the operations: no
    operation changes an id, a title or a priority, and none sets
    [isDone] back to false. *)
Theorem task_fate (ops : list op) (self : TaskManager) (t : task) :
  In t (tasks self) ->
  In t (tasks (run ops self))
  \/ In (completed t) (tasks (run ops self))
  \/ In (Delete (id t)) ops.
Proof.
  revert self t. unfold run.
  induction ops as [|o ops IH]; intros self t H; simpl.
  - left. exact H.
  - destruct (step_keeps_task self o t H) as [G | [G | G]].
    + destruct (IH _ _ G) as [K | [K | K]]; auto.
    + destruct (IH _ _ G) as [K | [K | K]]; auto.
    + right. right. left. exact G.
Qed.

End Service.

(** * The service with the UTF-8 encoder *)

(** From here on the examples are run, and the general properties
    applied, with [utf8_encoder]. *)
#[global] Existing Instance utf8_encoder.

(** ** The methods of [str] on paths *)

Example split_path :
  split "/" (strip "/" "/tasks/12/complete/") = ["tasks"; "12"; "complete"].
Proof. reflexivity. Qed.

Example split_keeps_empty_pieces :
  split "/" (strip "/" "/tasks//7") = ["tasks"; ""; "7"].
Proof. reflexivity. Qed.

Example extract_plain : _extract_task_id_from_path decimal_int "/tasks/12" = Some 12.
Proof. reflexivity. Qed.

Example extract_query :
  _extract_task_id_from_path decimal_int "/tasks/12?x=1" = None.
Proof. reflexivity. Qed.

Example extract_no_id : _extract_task_id_from_path decimal_int "/tasks/" = None.
Proof. reflexivity. Qed.

Example endswith_overlap : endswith "/tasks/complete" "/complete" = true.
Proof. reflexivity. Qed.

Example strip_space_text :
  strip_space (text_of [32; 160; 10] ++ "[]" ++ text_of [8232; 13; 10])%string
  = "[]".
Proof. reflexivity. Qed.

(** ** The scenarios of the specification *)

Example scenario_A :
  snd (dispatch decimal_int fresh (post_tasks "38" (PDict milk)))
  = Sent (_send_json
            (PDict [("id", PInt 1); ("title", PStr "Buy milk");
                    ("priority", PStr "high"); ("isDone", PBool false)])
            CREATED).
Proof. reflexivity. Qed.

Example scenario_B :
  dispatch decimal_int fresh
    (post_tasks "19" (PDict [("priority", PStr "high")]))
  = (fresh, Sent (_send_error BAD_REQUEST "title is required")).
Proof. reflexivity. Qed.

Example scenario_C :
  dispatch decimal_int fresh
    (post_tasks "33" (PDict [("title", PStr "X"); ("priority", PStr "urgent")]))
  = (fresh, Sent (_send_error BAD_REQUEST
                    "priority must be low, normal, or high")).
Proof. reflexivity. Qed.

Example scenario_D :
  snd (serve decimal_int fresh
         [post_tasks "38" (PDict milk); bare "POST" "/tasks/1/complete";
          bare "GET" "/tasks"])
  = [Sent (_send_json
             (PDict [("id", PInt 1); ("title", PStr "Buy milk");
                     ("priority", PStr "high"); ("isDone", PBool false)])
             CREATED);
     Sent (_send_json (PDict []) OK);
     Sent (_send_json
             (PList [PDict [("id", PInt 1); ("title", PStr "Buy milk");
                            ("priority", PStr "high");
                            ("isDone", PBool true)]]) OK)].
Proof. reflexivity. Qed.

Example scenario_E :
  dispatch decimal_int fresh (bare "DELETE" "/tasks/999")
  = (fresh, Sent (_send_error NOT_FOUND "Task not found")).
Proof. reflexivity. Qed.

Example scenario_F :
  dispatch decimal_int fresh (bare "GET" "/tasks")
  = (fresh, Sent (_send_json (PList []) OK)).
Proof. reflexivity. Qed.

(** The id of a deleted task comes back over HTTP as well: the second
    201 carries the id 1 again. *)
Example create_delete_create_over_http :
  map (fun out => match out with
                  | Sent r => Some (status r, body r)
                  | _ => None
                  end)
      (snd (serve decimal_int fresh
              [post_tasks "38" (PDict milk); bare "DELETE" "/tasks/1";
               post_tasks "38" (PDict milk)]))
  = [Some (201, Some (PDict [("id", PInt 1); ("title", PStr "Buy milk");
                             ("priority", PStr "high");
                             ("isDone", PBool false)]));
     Some (200, Some (PDict []));
     Some (201, Some (PDict [("id", PInt 1); ("title", PStr "Buy milk");
                             ("priority", PStr "high");
                             ("isDone", PBool false)]))].
Proof. reflexivity. Qed.

(** ** A title that cannot be encoded *)

(** [POST /tasks] with the body [{"title":"\ud800"}]: the task is
    appended, [json.dump] raises in [save_tasks], nothing is sent. *)
Example post_surrogate_crashes :
  dispatch decimal_int fresh post_surrogate
  = ({| tasks := [ {| id := 1; title := PStr lone_surrogate;
                      priority := PStr "normal"; isDone := false |} ];
        file := Written
                  (tasks_json [ {| id := 1; title := PStr lone_surrogate;
                                   priority := PStr "normal";
                                   isDone := false |} ]);
        writable := true |},
     Crashed "UnicodeEncodeError").
Proof. reflexivity. Qed.

(** [GET /tasks] on the store that request leaves: status and headers go
    out, the encoding of the list raises, no body follows. *)
Example get_surrogate_breaks :
  snd (dispatch decimal_int (fst (dispatch decimal_int fresh post_surrogate))
         (bare "GET" "/tasks"))
  = Sent {| status := 200; content_type := "application/json";
            body := None; raised := Some "UnicodeEncodeError" |}.
Proof. reflexivity. Qed.

(** A restart after that request finds a file that does not decode and
    starts with the empty list, while the list in memory holds a task. *)
Example restart_after_surrogate :
  load_tasks (file (fst (dispatch decimal_int fresh post_surrogate)))
  = Returns (PList [])
  /\ tasks (fst (dispatch decimal_int fresh post_surrogate)) <> [].
Proof. split; [reflexivity | discriminate]. Qed.

(** Three requests on the fresh store lead to [unwritable_title]. *)
Example reached_unwritable_title :
  serve decimal_int fresh
    [post_tasks "38" (PDict milk); post_surrogate;
     bare "POST" "/tasks/1/complete"]
  = (unwritable_title,
     [Sent (_send_json
              (PDict [("id", PInt 1); ("title", PStr "Buy milk");
                      ("priority", PStr "high"); ("isDone", PBool false)])
              CREATED);
      Crashed "UnicodeEncodeError";
      Crashed "UnicodeEncodeError"]).
Proof. reflexivity. Qed.

(** A length that is no [ssize_t]: [rfile.read] raises [OverflowError],
    which [_parse_json_body] does not catch. *)
Example length_overflow :
  dispatch decimal_int two_tasks overflowing
  = (two_tasks, Crashed "OverflowError").
Proof. reflexivity. Qed.

(** ** The claims on examples *)

Lemma unique_ids_invariant_witness :
  unique_ids two_tasks
  /\ unique_ids (run [Create (PStr "Read") (PStr "normal"); MarkDone 4;
                      Delete 1; Create (PStr "Write") (PStr "low")] two_tasks).
Proof.
  assert (H : unique_ids two_tasks).
  { unfold unique_ids. simpl.
    constructor; [simpl; intros [E | []]; discriminate |].
    constructor; [intros [] | constructor]. }
  split; [exact H | apply unique_ids_invariant; exact H].
Defined.

Lemma created_id_above_stored_witness :
  existsb is_delete create_mark_create = false
  /\ ids_assigned create_mark_create two_tasks = [5; 6]
  /\ ids_increase create_mark_create two_tasks
  /\ Forall (fun i => Forall (fun t => id t < i) (tasks two_tasks))
            (ids_assigned create_mark_create two_tasks).
Proof.
  split; [reflexivity |]. split; [reflexivity |].
  apply (created_id_above_stored create_mark_create two_tasks). reflexivity.
Defined.

(** C1 fails as stated: on a fresh store, create, delete 1, create assigns
    the id 1 twice, and the list holds a task with id 1 again. *)
Lemma deleted_id_assigned_again :
  ids_assigned create_delete_create fresh = [1; 1]
  /\ ~ ids_increase create_delete_create fresh
  /\ In 1 (map id (get_all_tasks (run create_delete_create fresh))).
Proof.
  split; [reflexivity |]. split.
  - unfold ids_increase.
    replace (ids_assigned create_delete_create fresh) with [1; 1]
      by reflexivity.
    intro H. inversion H as [|? ? _ Hall]; subst.
    inversion Hall as [|? ? Hlt _]; subst. lia.
  - simpl. left. reflexivity.
Qed.

(** C2, at the input where the code departs from it.  A POST to [/tasks]
    whose body is the JSON array [[]] has no title field, so the claim has
    it answered 400 "title is required"; the handler sends no response at
    all: [data.get] raises [AttributeError] out of it. *)
Theorem post_tasks_array_body :
  body_is decimal_int (post_tasks "2" (PList [])) (PList [])
  /\ _parse_json_body decimal_int (post_tasks "2" (PList []))
     = Returns (PList [])
  /\ Py.get (PList []) "title" PNone = Raises "AttributeError"
  /\ dispatch decimal_int fresh (post_tasks "2" (PList []))
     = (fresh, Crashed "AttributeError")
  /\ snd (dispatch decimal_int fresh (post_tasks "2" (PList [])))
     <> Sent (_send_error BAD_REQUEST "title is required").
Proof.
  split; [declared 2 |].
  split; [reflexivity |].
  split; [reflexivity |].
  split; [reflexivity |].
  cbn. discriminate.
Qed.

Lemma unrouted_is_not_found_witness :
  routed (bare "GET" "/items") = false
  /\ dispatch decimal_int two_tasks (bare "GET" "/items")
     = (two_tasks, Sent (_send_error NOT_FOUND "Route not found")).
Proof.
  split; [reflexivity |].
  apply (unrouted_is_not_found decimal_int two_tasks (bare "GET" "/items")).
  reflexivity.
Defined.

(** C5 fails as stated: a PUT matches no route and is answered 501 by the
    base class, not 404 "Route not found". *)
Lemma put_is_not_implemented :
  routed (bare "PUT" "/tasks") = false
  /\ dispatch decimal_int fresh (bare "PUT" "/tasks") = (fresh, LibraryError 501)
  /\ snd (dispatch decimal_int fresh (bare "PUT" "/tasks"))
     <> Sent (_send_error NOT_FOUND "Route not found").
Proof.
  split; [reflexivity |]. split; [reflexivity |]. discriminate.
Qed.

Lemma load_tasks_fallback_witness :
  forallb isspace [32; 9; 10; 160; 8232] = true
  /\ load_tasks (Content (text_of [32; 9; 10; 160; 8232])
                         (Loaded (PList [PInt 1])))
     = Returns (PList [])
  /\ strip_space " []" <> ""
  /\ load_tasks (Content " []" (Loaded (tasks_json []))) = Returns (PList []).
Proof.
  pose proof load_tasks_fallback as (_ & _ & Hb & _ & Hk & _).
  split; [reflexivity |]. split; [apply Hb; reflexivity |].
  assert (Hn : strip_space " []" <> "") by discriminate.
  split; [exact Hn | exact (Hk " []" (tasks_json []) Hn)].
Defined.

(** C6 fails as stated: a file that holds well-formed JSON which is not a
    task array (here the object [{"tasks": []}]) is not replaced by the
    empty collection; [self.tasks] is bound to the object. *)
Lemma other_json_is_kept :
  let v := PDict [("tasks", PList [])] in
  (forall l, v <> tasks_json l)
  /\ load_tasks (Content tasks_object_text (Loaded v)) = Returns v
  /\ load_tasks (Content tasks_object_text (Loaded v)) <> Returns (PList []).
Proof.
  intro v. split; [intros l H; discriminate H |].
  split; [reflexivity | discriminate].
Qed.

(** C7, at the input where the code departs from it.  The store
    [unwritable_title], which three requests on the fresh store lead to,
    holds the task 1, done, and a task whose title is a lone surrogate.
    Completing 1 again finds the task, sets the flag and calls
    [save_tasks], where [json.dump] raises [UnicodeEncodeError]: the
    exception leaves [mark_as_done] and the handler, and no 200 is sent.
    The flag stays true. *)
Theorem complete_done_unwritable :
  let t := {| id := 1; title := PStr "Buy milk"; priority := PStr "high";
              isDone := true |} in
  fst (serve decimal_int fresh
         [post_tasks "38" (PDict milk); post_surrogate;
          bare "POST" "/tasks/1/complete"]) = unwritable_title
  /\ In t (tasks unwritable_title)
  /\ complete_request decimal_int (bare "POST" "/tasks/1/complete") (id t)
  /\ mark_as_done unwritable_title (id t)
     = (unwritable_title, Raises "UnicodeEncodeError")
  /\ dispatch decimal_int unwritable_title (bare "POST" "/tasks/1/complete")
     = (unwritable_title, Crashed "UnicodeEncodeError")
  /\ snd (dispatch decimal_int unwritable_title
            (bare "POST" "/tasks/1/complete"))
     <> Sent (_send_json (PDict []) OK).
Proof.
  intro t. split; [reflexivity |]. split; [left; reflexivity |].
  split; [repeat split; reflexivity |]. split; [reflexivity |].
  split; [reflexivity |]. cbn. discriminate.
Qed.

(** C8, at the input where the code departs from it.  On
    [unwritable_title] the ids 1 and 2 are stored.  Completing 2 and
    deleting 1 find their task and change the list, and then
    [save_tasks] raises [UnicodeEncodeError] out of [mark_as_done] and
    [delete_task]: neither returns [True] and neither endpoint answers
    200, while the task 2 is completed and the task 1 is gone. *)
Theorem known_id_unwritable :
  In 1 (map id (tasks unwritable_title))
  /\ In 2 (map id (tasks unwritable_title))
  /\ complete_request decimal_int (bare "POST" "/tasks/2/complete") 2
  /\ delete_request decimal_int (bare "DELETE" "/tasks/1") 1
  /\ snd (mark_as_done unwritable_title 2) = Raises "UnicodeEncodeError"
  /\ snd (delete_task unwritable_title 1) = Raises "UnicodeEncodeError"
  /\ snd (dispatch decimal_int unwritable_title
            (bare "POST" "/tasks/2/complete"))
     = Crashed "UnicodeEncodeError"
  /\ snd (dispatch decimal_int unwritable_title (bare "DELETE" "/tasks/1"))
     = Crashed "UnicodeEncodeError"
  /\ map isDone
         (tasks (fst (dispatch decimal_int unwritable_title
                        (bare "POST" "/tasks/2/complete"))))
     = [true; true]
  /\ map id (tasks (fst (dispatch decimal_int unwritable_title
                           (bare "DELETE" "/tasks/1"))))
     = [2].
Proof.
  split; [left; reflexivity |]. split; [right; left; reflexivity |].
  split; [repeat split; reflexivity |]. split; [repeat split; reflexivity |].
  repeat split; reflexivity.
Qed.

Lemma create_then_list_witness :
  let new := {| id := 5; title := PStr "Read"; priority := PStr "low";
                isDone := false |} in
  savable two_tasks (get_all_tasks two_tasks ++ [new])
  /\ get_all_tasks (fst (create_task two_tasks (PStr "Read") (PStr "low")))
     = get_all_tasks two_tasks ++ [new]
  /\ snd (create_task two_tasks (PStr "Read") (PStr "low")) = Returns new.
Proof.
  intro new.
  assert (Hs : savable two_tasks (get_all_tasks two_tasks ++ [new]))
    by (right; reflexivity).
  pose proof (create_then_list two_tasks (PStr "Read") (PStr "low"))
    as (H1 & _ & _ & _ & H5).
  split; [exact Hs |]. split; [exact H1 | exact (H5 Hs)].
Defined.

Lemma non_object_body_witness :
  body_is decimal_int (post_tasks "5" (PStr "abc")) (PStr "abc")
  /\ dispatch decimal_int two_tasks (post_tasks "5" (PStr "abc"))
     = (two_tasks, Crashed "AttributeError").
Proof.
  assert (Hb : body_is decimal_int (post_tasks "5" (PStr "abc")) (PStr "abc")).
  { declared 5. }
  split; [exact Hb |].
  apply (non_object_body decimal_int two_tasks (post_tasks "5" (PStr "abc"))
           (PStr "abc") eq_refl eq_refl Hb eq_refl).
Defined.

(** C10 fails as stated: [null] is well-formed JSON and no object, and the
    handler answers it with a 400. *)
Lemma null_body_is_invalid_json :
  body_is decimal_int (post_tasks "4" PNone) PNone
  /\ is_dict PNone = false
  /\ dispatch decimal_int fresh (post_tasks "4" PNone)
     = (fresh, Sent (_send_error BAD_REQUEST "Invalid JSON"))
  /\ snd (dispatch decimal_int fresh (post_tasks "4" PNone))
     <> Crashed "AttributeError".
Proof.
  split.
  - declared 4.
  - split; [reflexivity |]. split; [reflexivity | discriminate].
Qed.

(** ** The further properties on examples *)

Lemma task_path_id_witness :
  segment "12"
  /\ _extract_task_id_from_path decimal_int "/tasks/12/complete" = Some 12
  /\ _extract_task_id_from_path decimal_int "/tasks/12/anything/else" = Some 12.
Proof.
  assert (H : segment "12") by (split; [discriminate | reflexivity]).
  split; [exact H |].
  pose proof (task_path_id decimal_int "12" "anything/else" H)
    as (_ & E2 & E3 & _).
  split; [exact E2 | exact E3].
Defined.

Lemma file_mirrors_list_witness :
  let self := fst (create_task fresh (PStr "Buy milk") (PStr "high")) in
  writable self = true
  /\ mirrored self
  /\ mirrored (run create_mark_create self)
  /\ load_tasks (file (run create_mark_create self))
     = Returns (tasks_json (tasks (run create_mark_create self))).
Proof.
  intro self.
  assert (Hc : mirrored self) by reflexivity.
  split; [reflexivity |]. split; [exact Hc |].
  pose proof (file_mirrors_list create_mark_create self eq_refl Hc)
    as (H1 & _ & H3 & _).
  split; [exact H1 | apply H3; reflexivity].
Defined.

Lemma memory_ignores_file_witness :
  tasks read_only_disk = tasks two_tasks
  /\ tasks (run create_delete_create read_only_disk)
     = tasks (run create_delete_create two_tasks)
  /\ file (run create_delete_create read_only_disk) = Content "[{" DecodeError.
Proof.
  pose proof (memory_ignores_file create_delete_create read_only_disk
                two_tasks eq_refl) as [Ht Hf].
  split; [reflexivity |]. split; [exact Ht | exact (Hf eq_refl)].
Defined.

Lemma mark_as_done_effect_witness :
  In 4 (map id (tasks two_tasks))
  /\ exists a t b,
       tasks two_tasks = a ++ t :: b
       /\ id t = 4
       /\ Forall (fun e => id e <> 4) a
       /\ tasks (fst (mark_as_done two_tasks 4)) = a ++ completed t :: b.
Proof.
  assert (H : In 4 (map id (tasks two_tasks)))
    by (simpl; right; left; reflexivity).
  split; [exact H | exact (mark_as_done_effect two_tasks 4 H)].
Defined.

Lemma delete_task_effect_witness :
  In 1 (map id (tasks two_tasks))
  /\ tasks (fst (delete_task two_tasks 1))
     = [ {| id := 4; title := PStr "Call home"; priority := PStr "low";
            isDone := false |} ]
  /\ exists a t b,
       tasks two_tasks = a ++ t :: b
       /\ id t = 1
       /\ Forall (fun e => id e <> 1) a
       /\ delete_task two_tasks 1
          = returning (save_tasks (with_tasks two_tasks (a ++ b))) true
       /\ tasks (fst (delete_task two_tasks 1)) = a ++ b
       /\ (savable two_tasks (a ++ b) ->
           snd (delete_task two_tasks 1) = Returns true)
       /\ (forall exn, writable two_tasks = true ->
             dump_raises (tasks_json (a ++ b)) = Some exn ->
             snd (delete_task two_tasks 1) = Raises exn)
       /\ (unique_ids two_tasks ->
           let self' := fst (delete_task two_tasks 1) in
           ~ In 1 (map id (tasks self'))
           /\ delete_task self' 1 = (self', Returns false)
           /\ mark_as_done self' 1 = (self', Returns false)).
Proof.
  assert (H : In 1 (map id (tasks two_tasks))) by (simpl; left; reflexivity).
  split; [exact H |]. split; [reflexivity |].
  exact (delete_task_effect two_tasks 1 H).
Defined.

Lemma ascending_positive_ids_witness :
  ascending fresh /\ Forall (fun x => 0 < x) (map id (tasks fresh))
  /\ ascending (run create_delete_create fresh)
  /\ Forall (fun x => 0 < x) (map id (tasks (run create_delete_create fresh))).
Proof.
  assert (Ha : ascending fresh) by constructor.
  assert (Hp : Forall (fun x => 0 < x) (map id (tasks fresh))) by constructor.
  split; [exact Ha |]. split; [exact Hp |].
  pose proof (ascending_positive_ids create_delete_create fresh Ha Hp)
    as (H1 & H2 & _).
  split; [exact H1 | exact H2].
Defined.

Lemma creates_count_up_witness :
  tasks fresh = []
  /\ map id (tasks (run (creates [(PStr "a", PStr "low"); (PStr "b", PStr "low");
                                  (PStr "c", PStr "high")]) fresh))
     = [1; 2; 3].
Proof.
  split; [reflexivity |].
  apply (proj2 (creates_count_up
                  [(PStr "a", PStr "low"); (PStr "b", PStr "low");
                   (PStr "c", PStr "high")] fresh)).
  reflexivity.
Defined.

Lemma lookup_after_create_witness :
  option_map obj
    (get_task_by_id (fst (create_task two_tasks (PStr "Read") (PStr "low"))) 5)
  = Some {| id := 5; title := PStr "Read"; priority := PStr "low";
            isDone := false |}
  /\ get_task_by_id (fst (create_task two_tasks (PStr "Read") (PStr "low"))) 4
     = get_task_by_id two_tasks 4.
Proof.
  pose proof (lookup_after_create two_tasks (PStr "Read") (PStr "low"))
    as [H1 H2].
  split; [exact H1 | apply H2; discriminate].
Defined.

Lemma response_envelope_witness :
  let broken := {| status := 200; content_type := "application/json";
                   body := None; raised := Some "UnicodeEncodeError" |} in
  snd (dispatch decimal_int unwritable_title (bare "GET" "/tasks"))
  = Sent broken
  /\ (body broken = None <-> raised broken <> None)
  /\ snd (dispatch decimal_int two_tasks (bare "DELETE" "/tasks/999"))
     = Sent (_send_error NOT_FOUND "Task not found")
  /\ complete (_send_error NOT_FOUND "Task not found")
  /\ body (_send_error NOT_FOUND "Task not found")
     = Some (PDict [("error", PStr "Task not found")]).
Proof.
  intro broken.
  assert (E : snd (dispatch decimal_int unwritable_title (bare "GET" "/tasks"))
              = Sent broken) by reflexivity.
  assert (F : snd (dispatch decimal_int two_tasks (bare "DELETE" "/tasks/999"))
              = Sent (_send_error NOT_FOUND "Task not found")) by reflexivity.
  pose proof (response_envelope decimal_int unwritable_title _ _ E)
    as (_ & _ & H3 & _).
  pose proof (response_envelope decimal_int two_tasks _ _ F)
    as (_ & _ & _ & _ & H5).
  split; [exact E |]. split; [exact H3 |]. split; [exact F |].
  assert (L : BAD_REQUEST <= status (_send_error NOT_FOUND "Task not found"))
    by (cbn; unfold BAD_REQUEST, NOT_FOUND; lia).
  destruct (H5 L) as (Hc & _). split; [exact Hc | reflexivity].
Defined.

Lemma refusal_leaves_store_witness :
  fst (dispatch decimal_int two_tasks
         (post_tasks "19" (PDict [("priority", PStr "high")])))
  = two_tasks
  /\ snd (dispatch decimal_int unwritable_title (bare "DELETE" "/tasks/1"))
     = Crashed "UnicodeEncodeError"
  /\ (fst (dispatch decimal_int unwritable_title (bare "DELETE" "/tasks/1"))
      = unwritable_title
      \/ exists o,
           fst (dispatch decimal_int unwritable_title (bare "DELETE" "/tasks/1"))
           = step unwritable_title o
           /\ raised_by unwritable_title o = Some "UnicodeEncodeError"
           /\ writable unwritable_title = true
           /\ dump_raises (tasks_json (tasks (step unwritable_title o)))
              = Some "UnicodeEncodeError"
           /\ file (step unwritable_title o)
              = Written (tasks_json (tasks (step unwritable_title o)))).
Proof.
  split.
  - apply (proj1 (refusal_leaves_store decimal_int two_tasks
                    (post_tasks "19" (PDict [("priority", PStr "high")])))
             (_send_error BAD_REQUEST "title is required")).
    + reflexivity.
    + cbn. unfold BAD_REQUEST. lia.
  - assert (E : snd (dispatch decimal_int unwritable_title
                       (bare "DELETE" "/tasks/1"))
                = Crashed "UnicodeEncodeError") by reflexivity.
    split; [exact E |].
    exact (proj2 (proj2 (proj2 (refusal_leaves_store decimal_int
                                  unwritable_title
                                  (bare "DELETE" "/tasks/1")))) _ E).
Defined.

Lemma served_tasks_valid_witness :
  Forall valid_task (tasks fresh)
  /\ Forall valid_task (tasks (fst (serve decimal_int fresh sample_traffic))).
Proof.
  assert (H : Forall valid_task (tasks fresh)) by constructor.
  split; [exact H |].
  exact (served_tasks_valid decimal_int sample_traffic fresh H).
Defined.

Lemma serve_is_run_witness :
  unique_ids two_tasks
  /\ unique_ids (fst (serve decimal_int two_tasks sample_traffic)).
Proof.
  assert (H : unique_ids two_tasks).
  { unfold unique_ids. simpl.
    constructor; [simpl; intros [E | []]; discriminate |].
    constructor; [intros [] | constructor]. }
  split; [exact H |].
  exact (proj2 (serve_is_run decimal_int sample_traffic two_tasks) H).
Defined.

Lemma delete_listed_empties_witness :
  Forall2 (fun req t => delete_request decimal_int req (id t))
          [bare "DELETE" "/tasks/7"; bare "DELETE" "/tasks/7";
           bare "DELETE" "/tasks/2"]
          (tasks twins)
  /\ (forall k, savable twins (skipn (S k) (tasks twins)))
  /\ tasks (fst (serve decimal_int twins
                   [bare "DELETE" "/tasks/7"; bare "DELETE" "/tasks/7";
                    bare "DELETE" "/tasks/2"])) = []
  /\ Forall (fun out => out = Sent (_send_json (PDict []) OK))
            (snd (serve decimal_int twins
                    [bare "DELETE" "/tasks/7"; bare "DELETE" "/tasks/7";
                     bare "DELETE" "/tasks/2"])).
Proof.
  assert (H : Forall2 (fun req t => delete_request decimal_int req (id t))
                [bare "DELETE" "/tasks/7"; bare "DELETE" "/tasks/7";
                 bare "DELETE" "/tasks/2"]
                (tasks twins)).
  { repeat constructor. }
  assert (S : forall k, savable twins (skipn (S k) (tasks twins))).
  { intro k. right. destruct k as [|[|[|k]]]; reflexivity. }
  pose proof (delete_listed_empties decimal_int _ twins H) as (H1 & _ & H3).
  split; [exact H |]. split; [exact S |]. split; [exact H1 | exact (H3 S)].
Defined.

(** On [unwritable_title] the first of the two deletions ends in the
    exception, the second is answered, and the list is empty. *)
Example delete_listed_unwritable :
  serve decimal_int unwritable_title
    [bare "DELETE" "/tasks/1"; bare "DELETE" "/tasks/2"]
  = ({| tasks := []; file := Written (PList []); writable := true |},
     [Crashed "UnicodeEncodeError"; Sent (_send_json (PDict []) OK)]).
Proof. reflexivity. Qed.

Lemma unread_body_is_invalid_witness :
  declared_length decimal_int no_length = Some 0
  /\ dispatch decimal_int two_tasks no_length
     = (two_tasks, Sent (_send_error BAD_REQUEST "Invalid JSON"))
  /\ declared_length decimal_int overflowing = Some (-9223372036854775809)
  /\ dispatch decimal_int two_tasks overflowing
     = (two_tasks, Crashed "OverflowError").
Proof.
  split; [reflexivity |]. split; [| split; [reflexivity |]].
  - apply (proj1 (unread_body_is_invalid decimal_int two_tasks no_length
                    eq_refl eq_refl)).
    right. left. reflexivity.
  - apply (proj2 (unread_body_is_invalid decimal_int two_tasks overflowing
                    eq_refl eq_refl) (-9223372036854775809)).
    + reflexivity.
    + discriminate.
    + reflexivity.
Defined.

Lemma exception_causes_witness :
  escaped (snd (dispatch decimal_int unwritable_title
                  (bare "POST" "/tasks/2/complete")))
  = Some "UnicodeEncodeError"
  /\ exists o,
       dispatch decimal_int unwritable_title (bare "POST" "/tasks/2/complete")
       = (step unwritable_title o, Crashed "UnicodeEncodeError")
       /\ writable unwritable_title = true
       /\ dump_raises (tasks_json (tasks (step unwritable_title o)))
          = Some "UnicodeEncodeError".
Proof.
  assert (E : escaped (snd (dispatch decimal_int unwritable_title
                              (bare "POST" "/tasks/2/complete")))
              = Some "UnicodeEncodeError") by reflexivity.
  split; [exact E |].
  destruct (exception_causes decimal_int unwritable_title _ _ E)
    as [(_ & Hp & _) | [H | [(Hs & _) | (t & p & Hs & _)]]].
  - discriminate Hp.
  - exact H.
  - discriminate Hs.
  - discriminate Hs.
Defined.

Lemma task_fate_witness :
  let t := {| id := 4; title := PStr "Call home"; priority := PStr "low";
              isDone := false |} in
  In t (tasks two_tasks)
  /\ (In t (tasks (run create_mark_create two_tasks))
      \/ In (completed t) (tasks (run create_mark_create two_tasks))
      \/ In (Delete (id t)) create_mark_create).
Proof.
  intro t.
  assert (H : In t (tasks two_tasks)) by (right; left; reflexivity).
  split; [exact H | exact (task_fate create_mark_create two_tasks t H)].
Defined.
